(** * archeobot: the ingestion and retrieval pipeline

    A shallow embedding of [src/rag.py] (class [RAGEngine]) and
    [src/ingest.py], and the properties of the retrieval engine and of the
    ingestion script stated in the specification.

    Conventions of the embedding.
    - A Python [float] is an IEEE 754 binary64 number: Rocq's primitive
      [float], whose operations are the same binary64 operations.
    - A Python [str] is a [string]; the literals of the source are kept as
      their UTF-8 bytes.
    - A Python [dict] with string keys is a [gmap string _]; a dict whose
      keys are fixed by a literal is a record.
    - A call that may raise returns a [result]: [Return v] or [Raise e]. *)

From Stdlib Require Import ZArith Floats Lia.
From stdpp Require Import base option list gmap strings.

Set Warnings "-inexact-float".
Set Default Proof Using "Type".

Open Scope Z_scope.

(** ** Python values used by the pipeline *)

(** [x / y] on non-negative integers with the remainder rounded half to
    even, the rounding rule of Python's [round]. *)
Definition round_half_even_div (a b : Z) : Z :=
  let q := a / b in
  match 2 * (a mod b) ?= b with
  | Lt => q
  | Gt => q + 1
  | Eq => if Z.even q then q else q + 1
  end.

(** Python's [round(x, 3)] on a float. CPython prints the exact binary value
    of [x] with three decimals (correctly rounded, ties to even) and reads
    that decimal back as the nearest binary64: [n] below is that decimal in
    thousandths, and the division [n / 1000] is correctly rounded. Zeros,
    infinities and NaN are returned as they are. *)
Definition py_round3 (x : float) : float :=
  match Prim2SF x with
  | S754_finite s m e =>
      let n := if 0 <=? e then Zpos m * 1000 * 2 ^ e
               else round_half_even_div (Zpos m * 1000) (2 ^ (- e)) in
      match n with
      | Zpos p =>
          SF2Prim (SFdiv prec emax (S754_finite s p 0) (S754_finite false 1000 0))
      | _ => if s then neg_zero else zero
      end
  | _ => x
  end.

(** [float(n)] for a Python int [n]. *)
Definition py_float_of_int (n : Z) : float :=
  SF2Prim (binary_normalize prec emax n 0 false).

(** [sum(xs)] over floats: the accumulator starts at the int [0] and each
    item is added in turn (CPython up to 3.11; from 3.12 on the float loop
    also carries a compensation term for the rounding errors, which is not
    modelled). *)
Definition py_sum (xs : list float) : float :=
  fold_left PrimFloat.add xs (py_float_of_int 0).

(** [sep.join(parts)]. *)
Definition py_join (sep : string) (parts : list string) : string :=
  String.concat sep parts.

(** The newline character of the Python literals ["\n"]. *)
Definition nl : string := String (Ascii.ascii_of_nat 10) EmptyString.

(** Exceptions: the class name and the message. *)
Record exn := Exception { exn_class : string; exn_msg : string }.

Inductive result (A : Type) : Type :=
| Return (a : A)
| Raise (e : exn).
Arguments Return {A} a.
Arguments Raise {A} e.

(** Sequencing: the first exception raised propagates. *)
#[global] Instance result_bind : MBind result := fun A B k m =>
  match m with
  | Return a => k a
  | Raise e => Raise e
  end.

(** [l[0]] on a list. *)
Definition py_index0 {A : Type} (l : list A) : result A :=
  match l with
  | x :: _ => Return x
  | [] => Raise (Exception "IndexError" "list index out of range")
  end.

(** ** src/rag.py *)

Module rag.

(** What [collection.query(query_texts, n_results, include=["documents",
    "metadatas", "distances"])] returns: one inner list per query text. *)
Record QueryResult := {
  documents : list (list string);
  metadatas : list (list (gmap string string));
  distances : list (list float)
}.

(** The ChromaDB collection, the external index the engine holds: only its
    [query] method is used by [search]. *)
Record Collection := {
  collection_name : string;
  collection_count : Z;
  collection_query : list string -> Z -> result QueryResult
}.

Record RAGEngine := {
  chroma_path : string;
  collection : Collection
}.

(** One formatted search result, the dict built in [search]. *)
Record Hit := {
  id : Z;
  content : string;
  metadata : gmap string string;
  similarity_score : float;
  distance : float
}.

(** The dict [source_info] of [generate_response]. *)
Record SourceInfo := {
  site : string;
  source : string;
  score : float
}.

(** The values stored in a response dict. *)
Inductive value :=
| VStr (s : string)
| VFloat (x : float)
| VInt (n : Z)
| VSources (l : list SourceInfo).

(** The loop of [search] over
    [enumerate(zip(documents[0], metadatas[0], distances[0]))]: [zip] stops at
    the shortest of the three lists. *)
Fixpoint format_results (i : Z) (docs : list string)
    (metas : list (gmap string string)) (dists : list float) : list Hit :=
  match docs, metas, dists with
  | doc :: docs', meta :: metas', d :: dists' =>
      let similarity_score := (1 - d)%float in
      {| id := i;
         content := doc;
         metadata := meta;
         similarity_score := py_round3 similarity_score;
         distance := py_round3 d |}
      :: format_results (i + 1) docs' metas' dists'
  | _, _, _ => []
  end.

Definition search (self : RAGEngine) (query : string) (k : Z)
    : result (list Hit) :=
  results ← collection_query (collection self) [query] k;
  match documents results with
  | [] => Return []
  | _ :: _ =>
      docs ← py_index0 (documents results);
      metas ← py_index0 (metadatas results);
      dists ← py_index0 (distances results);
      Return (format_results 0 docs metas dists)
  end.

(** [a == b] on two [source_info] dicts: same keys, so the values are
    compared, the score with the float comparison (under which NaN differs
    from itself and [0.0] equals [-0.0]). The dicts of two results are two
    objects, and so are their scores, as [search] builds them: the identity
    test Python makes before comparing never succeeds between them. *)
Definition source_info_eq (a b : SourceInfo) : bool :=
  String.eqb (site a) (site b)
  && String.eqb (source a) (source b)
  && PrimFloat.eqb (score a) (score b).

(** [x in sources]: some item of the list compares equal to [x]. *)
Definition py_in (x : SourceInfo) (sources : list SourceInfo) : bool :=
  existsb (fun item => source_info_eq item x) sources.

(** The [source_info] dict derived from one result. *)
Definition source_info_of (r : Hit) : SourceInfo :=
  let meta := metadata r in
  {| site := default "Inconnu" (meta !! "site");
     source := default "Document" (meta !! "source");
     score := similarity_score r |}.

(** One iteration of the loop of [generate_response], on the pair
    [(context_parts, sources)]. *)
Definition generate_response_step (st : list string * list SourceInfo)
    (r : Hit) : list string * list SourceInfo :=
  let context_parts := st.1 ++ [content r] in
  let source_info := source_info_of r in
  if negb (py_in source_info st.2)
  then (context_parts, st.2 ++ [source_info])
  else (context_parts, st.2).

Definition answer_prefix : string :=
  "D'après les informations disponibles :" +:+ nl +:+ nl.

Definition generate_response (query : string) (context_results : list Hit)
    : gmap string value :=
  match context_results with
  | [] =>
      <["answer" := VStr "Je ne dispose pas d'informations fiables sur ce sujet dans ma base de connaissances."]>
      (<["sources" := VSources []]>
      (<["confidence" := VFloat 0]> ∅))
  | _ :: _ =>
      let '(context_parts, sources) :=
        fold_left generate_response_step context_results ([], []) in
      let context := py_join (nl +:+ nl) context_parts in
      let answer := answer_prefix +:+ context in
      let confidence :=
        (py_sum (map similarity_score context_results)
         / py_float_of_int (Z.of_nat (length context_results)))%float in
      <["answer" := VStr answer]>
      (<["sources" := VSources sources]>
      (<["confidence" := VFloat (py_round3 confidence)]>
      (<["context_results" := VInt (Z.of_nat (length context_results))]> ∅)))
  end.

(** The response built by [query] when the search found nothing. *)
Definition no_result_response : gmap string value :=
  <["answer" := VStr "Aucune information pertinente trouvée."]>
  (<["sources" := VSources []]>
  (<["confidence" := VFloat 0]>
  (<["context_results" := VInt 0]> ∅))).

Definition query (self : RAGEngine) (question : string) (k : Z)
    : result (gmap string value) :=
  results ← search self question k;
  match results with
  | _ :: _ => Return (generate_response question results)
  | [] => Return no_result_response
  end.

End rag.

(** ** src/app.py: the search handler of [chatbot_page] *)

Module app.
Import rag.

(** The Streamlit calls of the handler. The widgets of the success branch
    (count, answer, sources, metrics) are one constructor. *)
Inductive widget :=
| st_error (msg : string)
| st_warning (msg : string)
| st_info (msg : string)
| st_answer (result : gmap string value).

(** [result['confidence'] > 0]. *)
Definition confidence_is_positive (response : gmap string value) : result bool :=
  match response !! "confidence" with
  | Some (VFloat c) => Return (PrimFloat.ltb 0 c)
  | Some (VInt n) => Return (0 <? n)
  | Some (VStr _) =>
      Raise (Exception "TypeError" "'>' not supported between instances of 'str' and 'int'")
  | Some (VSources _) =>
      Raise (Exception "TypeError" "'>' not supported between instances of 'list' and 'int'")
  | None => Raise (Exception "KeyError" "'confidence'")
  end.

(** The body of [if question:] in [chatbot_page]: [rag_engine] is [None]
    when the engine could not be initialised; the [try] covers the call of
    [query] and the rendering, and [except Exception as e] shows [str(e)]. *)
Definition chatbot_search (rag_engine : option RAGEngine) (question : string)
    : list widget :=
  if String.eqb question EmptyString then []
  else
    match rag_engine with
    | None =>
        [st_error "Le moteur RAG n'est pas initialisé. Exécutez ingest.py d'abord."]
    | Some engine =>
        let attempt :=
          result ← query engine question 3;
          positive ← confidence_is_positive result;
          Return (if positive : bool
                  then [st_answer result]
                  else [st_warning "⚠️ Aucune information pertinente trouvée.";
                        st_info "💡 Essayez avec : Carthage, Dougga, El Jem, Kerkouane, Sbeitla"]) in
        match attempt with
        | Return widgets => widgets
        | Raise e => [st_error ("Erreur lors de la recherche : " +:+ exn_msg e)]
        end
    end.

End app.

(** ** src/ingest.py *)

Module ingest.

(** A langchain [Document]: its text and its metadata dict. *)
Record Document := {
  page_content : string;
  doc_metadata : gmap string string
}.

(** The part of the file system the script reads: a path is absent, or
    holds a text file, or exists but cannot be loaded (a directory, a file
    that is not UTF-8, a permission error), in which case loading raises. *)
Inductive file_entry :=
| Readable (text : string)
| Unreadable (e : exn).

(** One line written by [print], by the statement that writes it. *)
Inductive output :=
| print_loaded (file : string) (n : nat)
    (* "✅ {file}: {len(docs)} document(s) chargé(s)" *)
| print_load_error (file : string) (e : exn)
    (* "❌ Erreur avec {file}: {e}" *)
| print_chunks_created (n : nat)
    (* "📊 {len(chunks)} chunks créés" *)
| print_header
    (* the three lines of the banner of [main] *)
| print_loading
    (* "📥 Chargement des documents..." *)
| print_no_document
    (* "❌ Aucun document trouvé. Vérifiez le dossier data/raw/" *)
| print_chunking
    (* "✂️ Découpage en chunks..." *)
| print_creating_store
    (* "🔧 Création de la base ChromaDB..." *)
| print_store_created (persist_directory : string)
    (* the three lines printed by [create_vector_store]; the count it shows
       is read back from the collection *)
| print_test_search (test_query : string)
    (* "🧪 Test de recherche..." and "Test '{test_query}':" *)
| print_test_result (i : nat) (excerpt : string)
    (* "  {i+1}. {doc.page_content[:80]}..." *)
| print_success.
    (* "✅ INGESTION TERMINÉE AVEC SUCCÈS!" between two rules *)

(** What a run does, in order: lines printed and calls to the vector
    store. *)
Inductive event :=
| Printed (o : output)
| IndexDocuments (chunks : list Document) (persist_directory : string)
    (* [Chroma.from_documents(documents=chunks, ...)] and [persist()] *)
| SimilaritySearch (test_query : string) (k : Z).

(** [os.path.join(a, b)] for two components. *)
Definition os_path_join (a b : string) : string :=
  if String.prefix "/" b then b
  else if (String.eqb a EmptyString || String.eqb (String.substring (String.length a - 1) 1 a) "/")%bool
       then a +:+ b
       else a +:+ "/" +:+ b.

Definition os_path_exists (fs : gmap string file_entry) (path : string) : bool :=
  bool_decide (is_Some (fs !! path)).

(** [TextLoader(filepath, encoding="utf-8").load()]: one document holding the
    whole file, with the path as its ["source"]. *)
Definition text_loader_load (fs : gmap string file_entry) (filepath : string)
    : result (list Document) :=
  match fs !! filepath with
  | Some (Readable text) =>
      Return [{| page_content := text;
                 doc_metadata := {["source" := filepath]} |}]
  | Some (Unreadable e) => Raise e
  | None => Raise (Exception "RuntimeError" ("Error loading " +:+ filepath))
  end.

(** [s.replace(sub, empty)], with the empty string as replacement, for a non-empty [sub]: [skip] counts the
    characters of the occurrence being removed that are still to drop. *)
Fixpoint py_remove (sub : string) (skip : nat) (s : string) : string :=
  match s with
  | EmptyString => EmptyString
  | String c s' =>
      match skip with
      | S n => py_remove sub n s'
      | O =>
          if String.prefix sub s
          then py_remove sub (String.length sub - 1) s'
          else String c (py_remove sub 0 s')
      end
  end.

Definition ascii_upper (c : Ascii.ascii) : Ascii.ascii :=
  let n := Ascii.nat_of_ascii c in
  if ((97 <=? n)%nat && (n <=? 122)%nat)%bool then Ascii.ascii_of_nat (n - 32) else c.

Definition ascii_lower (c : Ascii.ascii) : Ascii.ascii :=
  let n := Ascii.nat_of_ascii c in
  if ((65 <=? n)%nat && (n <=? 90)%nat)%bool then Ascii.ascii_of_nat (n + 32) else c.

Fixpoint string_map (f : Ascii.ascii -> Ascii.ascii) (s : string) : string :=
  match s with
  | EmptyString => EmptyString
  | String c s' => String (f c) (string_map f s')
  end.

(** [s.capitalize()] on ASCII text. *)
Definition py_capitalize (s : string) : string :=
  match s with
  | EmptyString => EmptyString
  | String c s' => String (ascii_upper c) (string_map ascii_lower s')
  end.

(** The list [files] of [load_documents]. *)
Definition files : list string :=
  ["carthage.txt"; "dougga.txt"; "el_jem.txt"; "kerkouane.txt"; "sbeitla.txt"].

(** The [doc.metadata.update({...})] of [load_documents]. *)
Definition add_metadata (file : string) (doc : Document) : Document :=
  let site_name := py_capitalize (py_remove ".txt" 0 file) in
  {| page_content := page_content doc;
     doc_metadata :=
       <["source" := file]>
       (<["site" := site_name]>
       (<["type" := "guide_officiel"]>
       (<["date" := "2024"]> (doc_metadata doc)))) |}.

(** One iteration of the loop of [load_documents], on the pair of the
    [documents] list and the lines printed so far. *)
Definition load_documents_step (fs : gmap string file_entry) (data_dir : string)
    (st : list Document * list output) (file : string)
    : list Document * list output :=
  let filepath := os_path_join data_dir file in
  if os_path_exists fs filepath then
    match text_loader_load fs filepath with
    | Return docs =>
        let docs := map (add_metadata file) docs in
        (st.1 ++ docs, st.2 ++ [print_loaded file (length docs)])
    | Raise e => (st.1, st.2 ++ [print_load_error file e])
    end
  else st.

Definition load_documents (fs : gmap string file_entry) (data_dir : string)
    : list Document * list output :=
  fold_left (load_documents_step fs data_dir) files ([], []).

Section pipeline.

(** [RecursiveCharacterTextSplitter(chunk_size, chunk_overlap, length_function
    =len, separators).split_text], from the langchain package. *)
Variable split_text : nat -> nat -> list string -> string -> list string.

(** The vector store once [chunks] are indexed: its answer to
    [similarity_search(query, k)]. *)
Variable similarity_search : list Document -> string -> Z -> list Document.

(** The [separators] given to the splitter by [create_chunks]. *)
Definition separators : list string := [nl +:+ nl; nl; ". "; " "; EmptyString].

(** [text_splitter.split_documents(documents)]: every document is split and
    each piece keeps the metadata of its document. *)
Definition split_documents (chunk_size chunk_overlap : nat)
    (documents : list Document) : list Document :=
  flat_map (fun doc =>
    map (fun text => {| page_content := text; doc_metadata := doc_metadata doc |})
        (split_text chunk_size chunk_overlap separators (page_content doc)))
    documents.

Definition create_chunks (documents : list Document)
    (chunk_size chunk_overlap : nat) : list Document * list output :=
  let chunks := split_documents chunk_size chunk_overlap documents in
  (chunks, [print_chunks_created (length chunks)]).

(** [create_vector_store(chunks)] with the default directory. *)
Definition create_vector_store (chunks : list Document)
    (persist_directory : string) : list event :=
  [IndexDocuments chunks persist_directory;
   Printed (print_store_created persist_directory)].

(** The lines printed for the results of the test search. *)
Definition print_test_results (results : list Document) : list event :=
  imap (fun i doc =>
    Printed (print_test_result i (String.substring 0 80 (page_content doc))))
    results.

(** [main()], as the events of a run in which the calls to the splitter
    and to the vector store return. *)
Definition main (fs : gmap string file_entry) : list event :=
  let '(documents, printed) := load_documents fs "data/raw" in
  let start := [Printed print_header; Printed print_loading] ++ map Printed printed in
  match documents with
  | [] => start ++ [Printed print_no_document]
  | _ :: _ =>
      let '(chunks, printed_chunks) := create_chunks documents 500 50 in
      let test_query := "Carthage" in
      let results := similarity_search chunks test_query 2 in
      start
      ++ [Printed print_chunking] ++ map Printed printed_chunks
      ++ [Printed print_creating_store]
      ++ create_vector_store chunks "data/chroma_db"
      ++ [Printed (print_test_search test_query);
          SimilaritySearch test_query 2]
      ++ print_test_results results
      ++ [Printed print_success]
  end.

End pipeline.

End ingest.

(** ** The Chunker

    [create_chunks] hands the splitting to langchain's
    [RecursiveCharacterTextSplitter], which is not part of the sources. *)

Module chunker.

(** Modelled from the spec: the step "split the text by the current
    separator" of the Chunker (section 4.1); the code of the splitter is
    missing from the sources. A piece ends where the next occurrence of [sep]
    starts, so the pieces put end to end are the text; the empty separator
    cuts between any two characters. *)
Fixpoint split_on (sep : string) (s : string) : list string :=
  match s with
  | EmptyString => []
  | String c s' =>
      match split_on sep s' with
      | [] => [String c EmptyString]
      | piece :: pieces =>
          if String.prefix sep s'
          then String c EmptyString :: piece :: pieces
          else String c piece :: pieces
      end
  end.

(** Modelled from the spec: "recursively split on an ordered list of
    separators. At each level, split the text by the current separator; if a
    resulting segment still exceeds [chunk_size], recurse into it with the
    next separator"; with no separator left the text is cut into characters
    ("falling back to raw character slicing"). The splitter is missing from
    the sources. *)
Fixpoint split_recursive (chunk_size : nat) (separators : list string)
    (text : string) : list string :=
  match separators with
  | [] => split_on EmptyString text
  | sep :: separators' =>
      flat_map (fun segment =>
        if (String.length segment <=? chunk_size)%nat then [segment]
        else split_recursive chunk_size separators' segment)
        (split_on sep text)
  end.

(** The text of a window: its segments put end to end. *)
Definition window_text (window : list string) : string :=
  String.concat EmptyString window.

(** Modelled from the spec: the start of the next window, "so consecutive
    windows share [chunk_overlap] characters of context": leading segments of
    the window just closed are dropped until what is left is at most
    [chunk_overlap] characters and leaves [room] for the next segment. The
    splitter is missing from the sources. *)
Fixpoint slide (chunk_overlap room : nat) (window : list string) : list string :=
  match window with
  | [] => []
  | _ :: rest =>
      let total := String.length (window_text window) in
      if ((total <=? chunk_overlap)%nat && (total <=? room)%nat)%bool
      then window
      else slide chunk_overlap room rest
  end.

(** Modelled from the spec: one step of "reassemble segments into windows of
    at most [chunk_size] characters", on the pair of the windows closed so
    far and the window being filled. The splitter is missing from the
    sources. *)
Definition merge_step (chunk_size chunk_overlap : nat)
    (st : list string * list string) (segment : string)
    : list string * list string :=
  let '(chunks, window) := st in
  if (String.length (window_text window) + String.length segment <=? chunk_size)%nat
  then (chunks, window ++ [segment])
  else
    let chunks :=
      match window with
      | [] => chunks
      | _ :: _ => chunks ++ [window_text window]
      end in
    (chunks,
     slide chunk_overlap (chunk_size - String.length segment) window ++ [segment]).

(** Modelled from the spec: the reassembly of the segments into windows; the
    window still open at the end is the last chunk. The splitter is missing
    from the sources. *)
Definition merge_segments (chunk_size chunk_overlap : nat)
    (segments : list string) : list string :=
  let '(chunks, window) :=
    fold_left (merge_step chunk_size chunk_overlap) segments ([], []) in
  match window with
  | [] => chunks
  | _ :: _ => chunks ++ [window_text window]
  end.

(** Modelled from the spec: the contract [chunk(document_text, chunk_size,
    chunk_overlap)] of section 4.1, standing for
    [RecursiveCharacterTextSplitter.split_text], which is missing from the
    sources. *)
Definition split_text (chunk_size chunk_overlap : nat)
    (separators : list string) (text : string) : list string :=
  merge_segments chunk_size chunk_overlap
    (split_recursive chunk_size separators text).

End chunker.

(** ** Definitions used by the statements *)

(** Two binary64 values that compare equal: the same number, the two zeros
    being one number and NaN being no number. *)
Definition sf_same (x y : spec_float) : Prop :=
  match x, y with
  | S754_zero _, S754_zero _ => True
  | S754_infinity s1, S754_infinity s2 => s1 = s2
  | S754_finite s1 m1 e1, S754_finite s2 m2 e2 => s1 = s2 /\ m1 = m2 /\ e1 = e2
  | _, _ => False
  end.

Module spec.
Import rag.

(** The deduplication in the words of the specification, "first occurrence
    wins": the first triple is kept and every later triple equal to it is
    left out. *)
Fixpoint first_occurrences (l : list SourceInfo) : list SourceInfo :=
  match l with
  | [] => []
  | x :: l' =>
      x :: List.filter (fun y => negb (source_info_eq x y)) (first_occurrences l')
  end.

(** The mean of a list of scores, as float arithmetic computes it: the sum
    divided by the number of scores. *)
Definition mean (xs : list float) : float :=
  (py_sum xs / py_float_of_int (Z.of_nat (length xs)))%float.

(** No two items of a list compare equal. *)
Inductive all_distinct : list SourceInfo -> Prop :=
| all_distinct_nil : all_distinct []
| all_distinct_cons x l :
    Forall (fun y => source_info_eq x y = false) l ->
    all_distinct l -> all_distinct (x :: l).

(** The [sources] component of one iteration of [generate_response]. *)
Definition add_source (sources : list SourceInfo) (x : SourceInfo)
    : list SourceInfo :=
  if negb (py_in x sources) then sources ++ [x] else sources.

End spec.

Module ingest_spec.
Import ingest.

(** The documents one file name contributes: the file wrapped as a document
    when it can be read, nothing otherwise. *)
Definition loaded_from (fs : gmap string file_entry) (data_dir file : string)
    : list Document :=
  match fs !! os_path_join data_dir file with
  | Some (Readable text) =>
      [add_metadata file
         {| page_content := text;
            doc_metadata := {["source" := os_path_join data_dir file]} |}]
  | _ => []
  end.

(** The lines one file name contributes to the output. *)
Definition printed_for (fs : gmap string file_entry) (data_dir file : string)
    : list output :=
  match fs !! os_path_join data_dir file with
  | Some (Readable _) => [print_loaded file 1]
  | Some (Unreadable e) => [print_load_error file e]
  | None => []
  end.

End ingest_spec.

Module chunker_spec.
Import chunker.


End chunker_spec.

(** ** Sample inputs *)

Module samples.
Import rag.

(** An index that holds nothing: a query returns one empty inner list. *)
Definition empty_collection : Collection :=
  {| collection_name := "sites_archeologiques_tunisie";
     collection_count := 0;
     collection_query := fun _ _ =>
       Return {| documents := [[]]; metadatas := [[]]; distances := [[]] |} |}.

(** An index whose query raises. *)
Definition broken_collection : Collection :=
  {| collection_name := "sites_archeologiques_tunisie";
     collection_count := 0;
     collection_query := fun _ _ =>
       Raise (Exception "RuntimeError" "index unreachable") |}.

(** An index that answers every query with three chunks, the first two
    from the same document and at the same distance. *)
Definition sample_collection : Collection :=
  {| collection_name := "sites_archeologiques_tunisie";
     collection_count := 3;
     collection_query := fun _ _ =>
       Return {| documents := [["Carthage, la ville."; "Le tophet de Carthage."; "Dougga."]];
                 metadatas := [[ {["site" := "Carthage"; "source" := "carthage.txt"]};
                                 {["site" := "Carthage"; "source" := "carthage.txt"]};
                                 {["site" := "Dougga"; "source" := "dougga.txt"]} ]];
                 distances := [[0.25; 0.25; 0.4004]]%float |} |}.

Definition engine (c : Collection) : RAGEngine :=
  {| chroma_path := "data/chroma_db"; collection := c |}.

Definition carthage_meta : gmap string string :=
  {["site" := "Carthage"; "source" := "carthage.txt"]}.

(** The results of [search] on [sample_collection]. *)
Definition sample_hits : list Hit :=
  [ {| id := 0; content := "Carthage, la ville."; metadata := carthage_meta;
       similarity_score := 0.75; distance := 0.25 |};
    {| id := 1; content := "Le tophet de Carthage."; metadata := carthage_meta;
       similarity_score := 0.75; distance := 0.25 |};
    {| id := 2; content := "Dougga.";
       metadata := {["site" := "Dougga"; "source" := "dougga.txt"]};
       similarity_score := 0.6; distance := 0.4 |} ]%float.

End samples.

Module ingest_samples.
Import ingest.

(** A source directory where only [carthage.txt] can be read: [el_jem.txt]
    exists but fails to load, the three other sites are missing, and a file
    that is not in the list is present. *)
Definition sample_fs : gmap string file_entry :=
  {[ "data/raw/carthage.txt" := Readable "Carthage, la ville.";
     "data/raw/el_jem.txt" := Unreadable (Exception "RuntimeError" "Error loading data/raw/el_jem.txt");
     "data/raw/notes.txt" := Readable "Brouillon." ]}.

(** A document as [load_documents] returns it for [carthage.txt]. *)
Definition carthage_document : Document :=
  {| page_content := "Carthage, la ville.";
     doc_metadata :=
       {[ "source" := "carthage.txt"; "site" := "Carthage";
          "type" := "guide_officiel"; "date" := "2024" ]} |}.

(** A splitter that cuts nothing and a store that returns what it holds. *)
Definition whole_text (chunk_size chunk_overlap : nat) (separators : list string)
    (text : string) : list string := [text].

Definition first_chunks (chunks : list Document) (test_query : string) (k : Z)
    : list Document := take (Z.to_nat k) chunks.

End ingest_samples.

(** ** Python strings as code points

    A [str] is kept as its UTF-8 bytes; its length and its slices count
    code points, that is the bytes that are not continuation bytes. *)

(** A continuation byte of UTF-8: [10xxxxxx]. *)
Definition is_continuation (c : Ascii.ascii) : bool :=
  let n := Ascii.nat_of_ascii c in
  ((128 <=? n)%nat && (n <? 192)%nat)%bool.

(** [len(s)]. *)
Fixpoint py_len (s : string) : nat :=
  match s with
  | EmptyString => 0%nat
  | String c s' => ((if is_continuation c then 0 else 1) + py_len s')%nat
  end.



(** ** src/auth.py *)

Module auth.

(** The users file as [json.load] returns it: a dict from user names to
    records, a record being a dict whose values are strings or [None]. *)
Abbreviation users_dict := (gmap string (gmap string (option string))).

(** What is at the path of the users file: nothing, a file that cannot be
    opened or parsed, or a file holding a dict of users. *)
Inductive file_state :=
| Absent
| Unreadable (e : exn)
| Json (users : gmap string (gmap string (option string))).

(** The disk: the users file, and the exception [open(path, "w")] raises
    when the file cannot be written. *)
Record Disk := {
  users_file_state : file_state;
  write_error : option exn
}.

Record AuthSystem := { users_file : string }.







(** [with open(path, "r") as f: users = json.load(f)]. *)
Definition read_users (self : AuthSystem) (disk : Disk) : result users_dict :=
  match users_file_state disk with
  | Json users => Return users
  | Unreadable e => Raise e
  | Absent =>
      Raise (Exception "FileNotFoundError"
               ("[Errno 2] No such file or directory: '" +:+ users_file self +:+ "'"))
  end.

(** [with open(path, "w") as f: json.dump(users, f)]. *)
Definition write_users (self : AuthSystem) (disk : Disk) (users : users_dict)
    : result Disk :=
  match write_error disk with
  | Some e => Raise e
  | None => Return {| users_file_state := Json users; write_error := None |}
  end.



Section hashing.

(** [hashlib.sha256(password.encode()).hexdigest()]. *)
Variable sha256_hexdigest : string -> string.

Definition _hash_password (self : AuthSystem) (password : string) : string :=
  sha256_hexdigest password.

(** The record [register] stores; [now] is [datetime.now().isoformat()]. *)
Definition new_record (self : AuthSystem) (now password : string)
    : gmap string (option string) :=
  <["password" := Some (_hash_password self password)]>
  (<["created_at" := Some now]>
  (<["last_login" := None]> ∅)).

Definition register (self : AuthSystem) (now : string) (disk : Disk)
    (username password : string) : Disk * (bool * string) :=
  let attempt : result (Disk * (bool * string)) :=
    users ← read_users self disk;
    if bool_decide (is_Some (users !! username))
    then Return (disk, (false, "Cet utilisateur existe déjà"))
    else
      let users := <[username := new_record self now password]> users in
      disk' ← write_users self disk users;
      Return (disk', (true, "Inscription réussie !")) in
  match attempt with
  | Return r => r
  | Raise e => (disk, (false, "Erreur lors de l'inscription: " +:+ exn_msg e))
  end.

Definition login (self : AuthSystem) (now : string) (disk : Disk)
    (username password : string) : Disk * (bool * string) :=
  let attempt : result (Disk * (bool * string)) :=
    users ← read_users self disk;
    match users !! username with
    | None => Return (disk, (false, "Utilisateur non trouvé"))
    | Some record =>
        match record !! "password" with
        | None => Raise (Exception "KeyError" "'password'")
        | Some stored =>
            if bool_decide (stored ≠ Some (_hash_password self password))
            then Return (disk, (false, "Mot de passe incorrect"))
            else
              let users :=
                <[username := <["last_login" := Some now]> record]> users in
              disk' ← write_users self disk users;
              Return (disk', (true, "Connexion réussie !"))
        end
    end in
  match attempt with
  | Return r => r
  | Raise e => (disk, (false, "Erreur lors de la connexion: " +:+ exn_msg e))
  end.

Definition user_exists (self : AuthSystem) (disk : Disk) (username : string)
    : bool :=
  match read_users self disk with
  | Return users => bool_decide (is_Some (users !! username))
  | Raise _ => false
  end.



End hashing.

End auth.

(** ** src/app.py: session, pages and routing *)

Module pages.
Import rag auth.

(** [st.session_state] as the script uses it. *)
Record SessionState := {
  authenticated : bool;
  username : string;
  rag_engine : option RAGEngine
}.

(** The session of a first visit: the defaults set at the top of the
    script. *)
Definition initial_session : SessionState :=
  {| authenticated := false; username := EmptyString; rag_engine := None |}.

(** The messages a handler shows. *)
Inductive notice :=
| st_success (msg : string)
| st_error (msg : string)
| st_warning (msg : string).

(** [init_rag()]: the engine, or [None] with an error shown when its
    construction raises. *)
Definition init_rag (construction : result RAGEngine)
    : option RAGEngine * list notice :=
  match construction with
  | Return engine => (Some engine, [])
  | Raise e => (None, [st_error ("Erreur d'initialisation RAG: " +:+ exn_msg e)])
  end.

(** A non-empty [str] is true. *)
Definition truthy (s : string) : bool := negb (String.eqb s EmptyString).

Section handlers.

Variable sha256_hexdigest : string -> string.
Variable auth_system : AuthSystem.
Variable engine : option RAGEngine.

(** The button "Se connecter" of [login_page]. *)
Definition login_click (now : string) (disk : Disk) (session : SessionState)
    (username password : string) : Disk * SessionState * list notice :=
  if (truthy username && truthy password)%bool then
    let '(disk', (success, message)) :=
      login sha256_hexdigest auth_system now disk username password in
    if success : bool then
      (disk',
       {| authenticated := true; username := username; rag_engine := engine |},
       [st_success message])
    else (disk', session, [st_error message])
  else (disk, session, [st_warning "Veuillez remplir tous les champs"]).

(** The button "S'inscrire" of [login_page]. *)
Definition signup_click (now : string) (disk : Disk) (session : SessionState)
    (new_user new_pwd confirm_pwd : string) : Disk * SessionState * list notice :=
  if (truthy new_user && truthy new_pwd && truthy confirm_pwd)%bool then
    if negb (String.eqb new_pwd confirm_pwd) then
      (disk, session, [st_error "Les mots de passe ne correspondent pas"])
    else if (py_len new_user <? 3)%nat then
      (disk, session,
       [st_error "Le nom d'utilisateur doit avoir au moins 3 caractères"])
    else if (py_len new_pwd <? 6)%nat then
      (disk, session,
       [st_error "Le mot de passe doit avoir au moins 6 caractères"])
    else
      let '(disk', (success, message)) :=
        register sha256_hexdigest auth_system now disk new_user new_pwd in
      if success : bool then (disk', session, [st_success message])
      else (disk', session, [st_error message])
  else (disk, session, [st_warning "Veuillez remplir tous les champs"]).

(** The button "Déconnexion" of [chatbot_page]. *)
Definition logout_click (session : SessionState) : SessionState :=
  {| authenticated := false;
     username := EmptyString;
     rag_engine := rag_engine session |}.

(** What a visitor does on the pages. *)
Inductive action :=
| ClickLogin (now username password : string)
| ClickSignup (now new_user new_pwd confirm_pwd : string)
| ClickLogout.

Inductive page := login_page | chatbot_page.

(** [main()]: the routing. *)
Definition main (session : SessionState) : page :=
  if negb (authenticated session) then login_page else chatbot_page.

(** One action on the page [main] shows: the login and sign-up buttons are
    on the login page, the logout button on the chatbot page; a button of
    the page that is not shown cannot be clicked. *)
Definition step (st : Disk * SessionState) (a : action) : Disk * SessionState :=
  let '(disk, session) := st in
  match main session, a with
  | login_page, ClickLogin now username password =>
      (login_click now disk session username password).1
  | login_page, ClickSignup now new_user new_pwd confirm_pwd =>
      (signup_click now disk session new_user new_pwd confirm_pwd).1
  | chatbot_page, ClickLogout => (disk, logout_click session)
  | _, _ => st
  end.

End handlers.

End pages.

(** ** src/rag.py: the interactive loop of [main] *)

Module cli.
Import rag.

    (* "⚠️ Erreur: {e}" *)











End cli.

(** ** More sample inputs *)

Module more_samples.
Import rag auth pages cli samples.

(** A stand-in for the hash function: any function does for the examples. *)
Definition sample_hash (password : string) : string := "sha256:" +:+ password.

Definition sample_auth : AuthSystem := {| users_file := "data/users.json" |}.

(** The disk after [_init_users_file] on a first run. *)
Definition empty_disk : Disk :=
  {| users_file_state := Json ∅; write_error := None |}.

(** The disk once ["amira"] has registered. *)
Definition registered_disk : Disk :=
  (register sample_hash sample_auth "2024-05-01T10:00:00" empty_disk
     "amira" "carthage1").1.

(** A disk without the users file. *)
Definition missing_disk : Disk :=
  {| users_file_state := Absent; write_error := None |}.

(** A visit: sign-up, a login with a wrong password, then the login. *)
Definition sample_visit : list action :=
  [ClickSignup "2024-05-01T10:00:00" "amira" "carthage1" "carthage1";
   ClickLogin "2024-05-01T10:01:00" "amira" "carthage2";
   ClickLogin "2024-05-01T10:02:00" "amira" "carthage1"].

End more_samples.

(** * Properties *)

(** ** Float comparison *)

Section float_comparison.

Lemma SFeqb_same (x y : spec_float) : SFeqb x y = true <-> sf_same x y.
Proof.
  unfold SFeqb.
  destruct x as [sx|sx| |sx mx ex], y as [sy|sy| |sy my ey]; simpl;
    try (split; [discriminate || tauto | tauto || discriminate || contradiction]);
    try (destruct sx; split; (discriminate || contradiction));
    try (destruct sy; split; (discriminate || contradiction)).
  - destruct sx, sy; split; intros H; try discriminate; try reflexivity; auto.
  - change (PosDef.Pos.compare_cont Eq mx my) with (Pos.compare mx my).
    destruct sx, sy; simpl;
      destruct (Z.compare_spec ex ey) as [He|He|He];
      try (split; [discriminate | intros (? & ? & ?); first [discriminate | lia]]).
    + destruct (Pos.compare_spec mx my) as [Hm|Hm|Hm]; simpl; subst;
        (split; [intros; try discriminate; auto | intros (? & ? & ?); try reflexivity; lia]).
    + destruct (Pos.compare_spec mx my) as [Hm|Hm|Hm]; simpl; subst;
        (split; [intros; try discriminate; auto | intros (? & ? & ?); try reflexivity; lia]).
Qed.

Lemma float_eqb_sym (x y : float) : PrimFloat.eqb x y = PrimFloat.eqb y x.
Proof.
  rewrite !FloatAxioms.eqb_spec.
  destruct (SFeqb (Prim2SF x) (Prim2SF y)) eqn:Hxy, (SFeqb (Prim2SF y) (Prim2SF x)) eqn:Hyx; try reflexivity.
  - apply SFeqb_same in Hxy. assert (SFeqb (Prim2SF y) (Prim2SF x) = true); [|congruence].
    apply SFeqb_same. destruct (Prim2SF x), (Prim2SF y); simpl in *; intuition congruence.
  - apply SFeqb_same in Hyx. assert (SFeqb (Prim2SF x) (Prim2SF y) = true); [|congruence].
    apply SFeqb_same. destruct (Prim2SF x), (Prim2SF y); simpl in *; intuition congruence.
Qed.

Lemma float_eqb_trans (x y z : float) :
  PrimFloat.eqb x y = true -> PrimFloat.eqb y z = true -> PrimFloat.eqb x z = true.
Proof.
  rewrite !FloatAxioms.eqb_spec, !SFeqb_same.
  destruct (Prim2SF x), (Prim2SF y), (Prim2SF z); simpl; intuition congruence.
Qed.

End float_comparison.

(** ** The retrieval engine *)

Section rag_properties.
Import rag app spec samples.

Lemma source_info_eq_sym (a b : SourceInfo) :
  source_info_eq a b = source_info_eq b a.
Proof.
  unfold source_info_eq.
  rewrite (float_eqb_sym (score a)), (String.eqb_sym (site a)), (String.eqb_sym (source a)).
  reflexivity.
Qed.

Lemma source_info_eq_trans (a b c : SourceInfo) :
  source_info_eq a b = true -> source_info_eq b c = true ->
  source_info_eq a c = true.
Proof.
  unfold source_info_eq. rewrite !andb_true_iff, !String.eqb_eq.
  intros [[-> ->] H1] [[-> ->] H2]. eauto using float_eqb_trans.
Qed.

Lemma source_info_eq_refl (a : SourceInfo) :
  is_nan (score a) = false -> source_info_eq a a = true.
Proof.
  unfold is_nan, source_info_eq. intros H. rewrite !String.eqb_refl. simpl.
  now apply negb_false_iff.
Qed.

Lemma loop_context_parts (hits : list Hit) st :
  (fold_left generate_response_step hits st).1 = st.1 ++ map content hits.
Proof.
  revert st. induction hits as [|h hits IH]; intros st; simpl.
  - now rewrite app_nil_r.
  - rewrite IH. unfold generate_response_step.
    destruct (negb _); simpl; now rewrite <- app_assoc.
Qed.

Lemma loop_sources (hits : list Hit) st :
  (fold_left generate_response_step hits st).2
  = fold_left add_source (map source_info_of hits) st.2.
Proof.
  revert st. induction hits as [|h hits IH]; intros st; simpl; [reflexivity|].
  rewrite IH. unfold generate_response_step, add_source.
  destruct (negb _); reflexivity.
Qed.

Lemma py_in_app x l1 l2 : py_in x (l1 ++ l2) = py_in x l1 || py_in x l2.
Proof. unfold py_in. apply existsb_app. Qed.

Lemma filter_filter_and {A} (f g : A -> bool) l :
  List.filter f (List.filter g l) = List.filter (fun x => g x && f x) l.
Proof.
  induction l as [|a l IH]; simpl; [reflexivity|].
  destruct (g a); simpl; [destruct (f a)|]; now rewrite IH.
Qed.

Lemma add_sources_first_occurrences (l acc : list SourceInfo) :
  fold_left add_source l acc
  = acc ++ List.filter (fun y => negb (py_in y acc)) (first_occurrences l).
Proof.
  revert acc. induction l as [|x l IH]; intros acc; simpl.
  - now rewrite app_nil_r.
  - rewrite IH. unfold add_source. destruct (py_in x acc) eqn:Hin; simpl.
    + f_equal. rewrite filter_filter_and. apply List.filter_ext_in.
      intros y _. destruct (source_info_eq x y) eqn:Hxy; simpl; [|reflexivity].
      apply negb_false_iff.
      unfold py_in in *. apply existsb_exists in Hin as (e & He & Hex).
      apply existsb_exists. exists e. eauto using source_info_eq_trans.
    + rewrite <- app_assoc. simpl. do 2 f_equal.
      rewrite filter_filter_and. apply List.filter_ext.
      intros y. rewrite py_in_app, negb_orb. unfold py_in at 2. simpl.
      now rewrite orb_false_r, andb_comm.
Qed.

Lemma sources_first_occurrences (hits : list Hit) :
  (fold_left generate_response_step hits ([], [])).2
  = first_occurrences (map source_info_of hits).
Proof.
  rewrite loop_sources, add_sources_first_occurrences. simpl.
  induction (first_occurrences _) as [|a l IH]; simpl; congruence.
Qed.

Lemma filter_elem_of {A} (f : A -> bool) (l : list A) (x : A) :
  x ∈ List.filter f l <-> x ∈ l /\ f x = true.
Proof. rewrite !list_elem_of_In. apply List.filter_In. Qed.

Lemma filter_sublist {A} (f : A -> bool) (l : list A) :
  sublist (List.filter f l) l.
Proof.
  induction l as [|a l IH]; simpl; [constructor|].
  destruct (f a); now constructor.
Qed.

Lemma filter_none {A} (f : A -> bool) (l : list A) :
  (forall x, x ∈ l -> f x = false) -> List.filter f l = [].
Proof.
  induction l as [|a l IH]; intros H; simpl; [reflexivity|].
  rewrite (H a) by left. apply IH. intros x Hx. apply H. now right.
Qed.

Lemma all_distinct_filter f l :
  all_distinct l -> all_distinct (List.filter f l).
Proof.
  induction 1 as [|x l Hx Hl IH]; simpl; [constructor|].
  destruct (f x); [|assumption]. constructor; [|assumption].
  apply Forall_forall. intros y Hy. apply filter_elem_of in Hy as [Hy _].
  rewrite Forall_forall in Hx. auto.
Qed.

Lemma first_occurrences_distinct l : all_distinct (first_occurrences l).
Proof.
  induction l as [|x l IH]; simpl; constructor.
  - apply Forall_forall. intros y Hy. apply filter_elem_of in Hy as [_ Hy].
    now apply negb_true_iff.
  - now apply all_distinct_filter.
Qed.

Lemma all_distinct_lookup l (i j : nat) a b :
  all_distinct l -> (i < j)%nat -> l !! i = Some a -> l !! j = Some b ->
  source_info_eq a b = false.
Proof.
  intros Hl. revert i j. induction Hl as [|x l Hx Hl IH]; intros i j Hij Hi Hj.
  - discriminate.
  - destruct j as [|j]; [lia|]. simpl in Hj. destruct i as [|i]; simpl in Hi.
    + injection Hi as ->. rewrite Forall_forall in Hx.
      apply Hx. eapply list_elem_of_lookup_2; eauto.
    + apply (IH i j); [lia|assumption..].
Qed.

Lemma first_occurrences_sublist l : sublist (first_occurrences l) l.
Proof.
  induction l as [|x l IH]; simpl; [constructor|].
  constructor. etransitivity; [apply filter_sublist|assumption].
Qed.

Lemma first_occurrences_covers l x :
  x ∈ l ->
  x ∈ first_occurrences l
  \/ exists e, e ∈ first_occurrences l /\ source_info_eq e x = true.
Proof.
  induction l as [|y l IH]; intros Hx; [now apply elem_of_nil in Hx|].
  simpl. apply elem_of_cons in Hx as [->|Hx]; [left; left|].
  destruct (source_info_eq y x) eqn:Hyx; [right; exists y; split; [left|assumption]|].
  destruct (IH Hx) as [Hin|(e & He & Hex)].
  - left. right. apply filter_elem_of. now rewrite Hyx.
  - right. destruct (source_info_eq y e) eqn:Hye.
    + rewrite (source_info_eq_trans y e x) in Hyx; [discriminate|assumption..].
    + exists e. split; [|assumption]. right. apply filter_elem_of. now rewrite Hye.
Qed.

Lemma first_occurrences_entry l x y :
  x ∈ l -> source_info_eq x y = true ->
  exists e, e ∈ first_occurrences l /\ source_info_eq e x = true.
Proof.
  intros Hx Hxy.
  assert (Hxx : source_info_eq x x = true).
  { apply (source_info_eq_trans x y x); [assumption|]. now rewrite source_info_eq_sym. }
  destruct (first_occurrences_covers l x Hx) as [Hin|He]; eauto.
Qed.

Lemma all_distinct_count l e x :
  all_distinct l -> e ∈ l -> source_info_eq e x = true ->
  length (List.filter (fun e' => source_info_eq e' x) l) = 1%nat.
Proof.
  induction 1 as [|y l Hy Hl IH]; intros He Hex; [now apply elem_of_nil in He|].
  simpl. destruct (source_info_eq y x) eqn:Hyx.
  - simpl. f_equal. rewrite filter_none; [reflexivity|].
    intros z Hz. rewrite Forall_forall in Hy. specialize (Hy z Hz).
    destruct (source_info_eq z x) eqn:Hzx; [|reflexivity].
    rewrite (source_info_eq_trans y x z) in Hy; [discriminate|assumption|].
    now rewrite source_info_eq_sym.
  - apply elem_of_cons in He as [->|He]; [congruence|]. now apply IH.
Qed.

(** The response of [generate_response] on a non-empty list, field by
    field. *)
Lemma generate_response_nonempty query (hits : list Hit) :
  hits <> [] ->
  generate_response query hits =
    <["answer" := VStr (answer_prefix +:+ py_join (nl +:+ nl) (map content hits))]>
    (<["sources" := VSources (first_occurrences (map source_info_of hits))]>
    (<["confidence" := VFloat (py_round3 (mean (map similarity_score hits)))]>
    (<["context_results" := VInt (Z.of_nat (length hits))]> ∅))).
Proof.
  intros Hne. destruct hits as [|h hits]; [congruence|].
  unfold generate_response.
  pose proof (loop_context_parts (h :: hits) ([], [])) as Hc.
  pose proof (sources_first_occurrences (h :: hits)) as Hs.
  destruct (fold_left _ _ _) as [context_parts sources]. simpl in Hc, Hs.
  subst. unfold mean. now rewrite length_map.
Qed.

Lemma format_results_lookup i0 docs metas dists (i : nat) h :
  format_results i0 docs metas dists !! i = Some h ->
  exists d, dists !! i = Some d
    /\ similarity_score h = py_round3 (1 - d)%float.
Proof.
  revert i0 metas dists i.
  induction docs as [|doc docs IH]; intros i0 metas dists i; simpl; [discriminate|].
  destruct metas as [|meta metas]; [discriminate|].
  destruct dists as [|d dists]; [discriminate|].
  destruct i as [|i]; simpl.
  - intros [= <-]. eauto.
  - apply IH.
Qed.

Example search_sample :
  search (engine sample_collection) "Carthage" 3 = Return sample_hits.
Proof. reflexivity. Qed.

Example search_empty : search (engine empty_collection) "Carthage" 3 = Return [].
Proof. reflexivity. Qed.

(** The deduplication scenario of the specification, on two hits. *)
Example dedup_identical_triples (h1 h2 : Hit) :
  source_info_eq (source_info_of h1) (source_info_of h2) = true ->
  first_occurrences (map source_info_of [h1; h2]) = [source_info_of h1].
Proof. intros H. simpl. now rewrite H. Qed.

Example dedup_different_scores (h1 h2 : Hit) :
  PrimFloat.eqb (similarity_score h1) (similarity_score h2) = false ->
  first_occurrences (map source_info_of [h1; h2])
  = [source_info_of h1; source_info_of h2].
Proof.
  intros H. simpl. unfold source_info_eq at 1. simpl. rewrite H.
  now rewrite andb_false_r.
Qed.

(** With hits, [query] returns what [generate_response] builds from them. *)
Lemma query_with_hits self question k (hits : list Hit) :
  search self question k = Return hits -> hits <> [] ->
  query self question k = Return (generate_response question hits).
Proof.
  intros H Hne. unfold query. rewrite H. destruct hits; [congruence|reflexivity].
Qed.



Example confidence_sample :
  generate_response "Carthage" sample_hits !! "confidence" = Some (VFloat 0.7)%float.
Proof. reflexivity. Qed.

(** C2: the [sources] field holds the triples of the hits with every triple
    equal to an earlier one left out, in the order of first occurrence,
    equality being [==] on the dicts. No two entries are equal, every hit
    has its entry, two hits with equal triples share exactly one entry, and
    two hits with different scores (whatever their sites) have two entries
    at different positions. *)
Theorem sources_are_first_occurrences query (hits : list Hit) :
  exists sources,
    generate_response query hits !! "sources" = Some (VSources sources)
    /\ sources = first_occurrences (map source_info_of hits)
    /\ sublist sources (map source_info_of hits)
    /\ (forall (i j : nat) a b,
          (i < j)%nat -> sources !! i = Some a -> sources !! j = Some b ->
          source_info_eq a b = false)
    /\ (forall h, h ∈ hits ->
          source_info_of h ∈ sources
          \/ exists e, e ∈ sources /\ source_info_eq e (source_info_of h) = true)
    /\ (forall h1 h2, h1 ∈ hits -> h2 ∈ hits ->
          source_info_eq (source_info_of h1) (source_info_of h2) = true ->
          length (List.filter (fun e => source_info_eq e (source_info_of h1)) sources) = 1%nat
          /\ List.filter (fun e => source_info_eq e (source_info_of h2)) sources
             = List.filter (fun e => source_info_eq e (source_info_of h1)) sources)
    /\ (forall h1 h2, h1 ∈ hits -> h2 ∈ hits ->
          is_nan (similarity_score h1) = false ->
          is_nan (similarity_score h2) = false ->
          PrimFloat.eqb (similarity_score h1) (similarity_score h2) = false ->
          exists (i j : nat) e1 e2,
            i <> j /\ sources !! i = Some e1 /\ sources !! j = Some e2
            /\ source_info_eq e1 (source_info_of h1) = true
            /\ source_info_eq e2 (source_info_of h2) = true).
Proof.
  exists (first_occurrences (map source_info_of hits)).
  assert (Hin : forall h, h ∈ hits -> source_info_of h ∈ map source_info_of hits).
  { intros h Hh. apply list_elem_of_fmap. eauto. }
  split; [|split; [reflexivity|]].
  { destruct hits as [|h hits]; [reflexivity|].
    now rewrite generate_response_nonempty. }
  split; [apply first_occurrences_sublist|].
  split; [intros i j a b; apply all_distinct_lookup, first_occurrences_distinct|].
  split; [intros h Hh; apply first_occurrences_covers; auto|].
  split.
  - intros h1 h2 H1 H2 Heq.
    destruct (first_occurrences_entry _ _ _ (Hin h1 H1) Heq) as (e & He & Heq1).
    split.
    + eapply all_distinct_count; eauto using first_occurrences_distinct.
    + apply List.filter_ext. intros e'.
      destruct (source_info_eq e' (source_info_of h1)) eqn:E1.
      * eauto using source_info_eq_trans.
      * destruct (source_info_eq e' (source_info_of h2)) eqn:E2; [|reflexivity].
        rewrite (source_info_eq_trans e' (source_info_of h2) (source_info_of h1)) in E1;
          [discriminate|assumption|]. now rewrite source_info_eq_sym.
  - intros h1 h2 H1 H2 N1 N2 Hne.
    destruct (first_occurrences_entry _ _ _ (Hin h1 H1)
                (source_info_eq_refl (source_info_of h1) N1)) as (e1 & He1 & Heq1).
    destruct (first_occurrences_entry _ _ _ (Hin h2 H2)
                (source_info_eq_refl (source_info_of h2) N2)) as (e2 & He2 & Heq2).
    apply list_elem_of_lookup in He1 as [i Hi], He2 as [j Hj].
    exists i, j, e1, e2. repeat split; try assumption.
    intros ->. rewrite Hi in Hj. injection Hj as <-.
    assert (Hs : source_info_eq (source_info_of h1) (source_info_of h2) = true).
    { apply (source_info_eq_trans _ e1); [|assumption]. now rewrite source_info_eq_sym. }
    unfold source_info_eq in Hs. apply andb_true_iff in Hs as [_ Hs].
    simpl in Hs. congruence.
Qed.

Example sources_sample :
  generate_response "Carthage" sample_hits !! "sources"
  = Some (VSources [ {| site := "Carthage"; source := "carthage.txt"; score := 0.75 |};
                     {| site := "Dougga"; source := "dougga.txt"; score := 0.6 |} ])%float.
Proof. reflexivity. Qed.

Lemma sources_are_first_occurrences_witness :
  exists sources,
    generate_response "Carthage" sample_hits !! "sources" = Some (VSources sources)
    /\ sources = first_occurrences (map source_info_of sample_hits)
    /\ sublist sources (map source_info_of sample_hits).
Proof.
  destruct (sources_are_first_occurrences "Carthage" sample_hits)
    as (sources & Hs & Hfirst & Hsub & _).
  exists sources. split; [exact Hs|]. split; [exact Hfirst|exact Hsub].
Defined.

(** C3: when the search returns no hit, [query] returns, as a normal result,
    the response with the fixed text, no source, confidence [0.0] and
    [context_results] 0. *)
Theorem query_without_hits self question k :
  search self question k = Return [] ->
  exists response,
    query self question k = Return response
    /\ response !! "answer" = Some (VStr "Aucune information pertinente trouvée.")
    /\ response !! "sources" = Some (VSources [])
    /\ response !! "confidence" = Some (VFloat 0)
    /\ response !! "context_results" = Some (VInt 0).
Proof.
  intros H. exists no_result_response. unfold query. rewrite H.
  repeat split; reflexivity.
Qed.

Lemma query_without_hits_witness :
  exists response,
    query (engine empty_collection) "zzz_nonexistent_token" 3 = Return response
    /\ response !! "answer" = Some (VStr "Aucune information pertinente trouvée.")
    /\ response !! "sources" = Some (VSources [])
    /\ response !! "confidence" = Some (VFloat 0)
    /\ response !! "context_results" = Some (VInt 0).
Proof.
  apply (query_without_hits (engine empty_collection) "zzz_nonexistent_token" 3).
  reflexivity.
Defined.

(** C4, as stated, fails: [query] has no handler, so a failure of the index
    is not turned into a result; the call ends with the exception. *)
Lemma query_raises_on_broken_index :
  query (engine broken_collection) "Carthage" 3
  = Raise (Exception "RuntimeError" "index unreachable")
  /\ forall response,
       query (engine broken_collection) "Carthage" 3 <> Return response.
Proof. split; [reflexivity|]. intros response. discriminate. Qed.

(** The handler of the page on a search without hits: the warning and the
    hint, no error. *)
Lemma chatbot_search_no_match self question :
  question <> EmptyString ->
  search self question 3 = Return [] ->
  chatbot_search (Some self) question
  = [st_warning "⚠️ Aucune information pertinente trouvée.";
     st_info "💡 Essayez avec : Carthage, Dougga, El Jem, Kerkouane, Sbeitla"].
Proof.
  intros Hq H. unfold chatbot_search, query.
  rewrite (proj2 (String.eqb_neq _ _) Hq), H. reflexivity.
Qed.

(** C4, amended: an exception raised by the index propagates through
    [search] and out of [query], which has no handler and returns no result
    then. It is the caller that turns the failure into a message: the search
    handler of the page shows an error with the text of the exception, where
    a search without hits shows the "no match" warning. *)
Theorem index_exceptions_propagate self question k e :
  collection_query (collection self) [question] k = Raise e ->
  search self question k = Raise e
  /\ query self question k = Raise e
  /\ (forall response, query self question k <> Return response)
  /\ (k = 3 -> question <> EmptyString ->
      chatbot_search (Some self) question
      = [st_error ("Erreur lors de la recherche : " +:+ exn_msg e)]
      /\ forall other,
           search other question 3 = Return [] ->
           chatbot_search (Some other) question
           <> chatbot_search (Some self) question).
Proof.
  intros H.
  assert (Hs : search self question k = Raise e) by (unfold search; now rewrite H).
  assert (Hquery : query self question k = Raise e) by (unfold query; now rewrite Hs).
  split; [exact Hs|]. split; [exact Hquery|]. split; [congruence|].
  intros -> Hq.
  assert (Herr : chatbot_search (Some self) question
                 = [st_error ("Erreur lors de la recherche : " +:+ exn_msg e)]).
  { unfold chatbot_search. rewrite (proj2 (String.eqb_neq _ _) Hq), Hquery. reflexivity. }
  split; [exact Herr|]. intros other Hother.
  rewrite Herr, (chatbot_search_no_match other question Hq Hother). discriminate.
Qed.

Lemma index_exceptions_propagate_witness :
  search (engine broken_collection) "Carthage" 3
  = Raise (Exception "RuntimeError" "index unreachable")
  /\ query (engine broken_collection) "Carthage" 3
     = Raise (Exception "RuntimeError" "index unreachable")
  /\ chatbot_search (Some (engine broken_collection)) "Carthage"
     = [st_error "Erreur lors de la recherche : index unreachable"]
  /\ chatbot_search (Some (engine empty_collection)) "Carthage"
     <> chatbot_search (Some (engine broken_collection)) "Carthage".
Proof.
  pose proof (index_exceptions_propagate (engine broken_collection) "Carthage" 3
                (Exception "RuntimeError" "index unreachable") eq_refl)
    as (Hs & Hq & _ & Happ).
  assert (Hne : "Carthage" <> EmptyString) by discriminate.
  destruct (Happ eq_refl Hne) as [Herr Hdiff].
  split; [exact Hs|]. split; [exact Hq|]. split; [exact Herr|].
  exact (Hdiff (engine empty_collection) eq_refl).
Defined.

(** Every exception of [search] reaches the caller of [query], and [query]
    returns a response exactly when [search] returned its hits. *)
Lemma query_raises_iff_search_raises self question k e :
  query self question k = Raise e <-> search self question k = Raise e.
Proof.
  unfold query. destruct (search self question k) as [[|h hits]|e']; simpl;
    split; congruence.
Qed.

(** C6: every hit returned by [search] carries as similarity score the
    value [1 - d] rounded to three decimals by [round], where [d] is the raw
    distance the index reported at the same rank. *)
Theorem similarity_is_rounded_complement self query k hits :
  search self query k = Return hits ->
  exists results,
    collection_query (collection self) [query] k = Return results
    /\ forall (i : nat) h, hits !! i = Some h ->
       exists dists d,
         head (distances results) = Some dists
         /\ dists !! i = Some d
         /\ similarity_score h = py_round3 (1 - d)%float.
Proof.
  unfold search. destruct (collection_query _ _ _) as [results|e]; simpl; [|discriminate].
  intros H. exists results. split; [reflexivity|]. intros i h Hi.
  destruct (documents results) as [|docs ?]; simpl in H.
  { injection H as <-. discriminate. }
  destruct (metadatas results) as [|metas ?]; simpl in H; [discriminate|].
  destruct (distances results) as [|dists ?]; simpl in H; [discriminate|].
  injection H as <-. apply format_results_lookup in Hi as (d & ? & ?).
  exists dists, d. auto.
Qed.

Lemma similarity_is_rounded_complement_witness :
  exists results,
    collection_query sample_collection ["Carthage"] 3 = Return results
    /\ forall (i : nat) h, sample_hits !! i = Some h ->
       exists dists d,
         head (distances results) = Some dists
         /\ dists !! i = Some d
         /\ similarity_score h = py_round3 (1 - d)%float.
Proof.
  apply (similarity_is_rounded_complement (engine sample_collection) "Carthage" 3).
  reflexivity.
Defined.

(** C8: for a non-empty list of hits, the answer is the fixed prefix
    followed by the contents of the hits in the order of the list, two
    newlines (a blank line) between consecutive contents; [query] returns
    that answer for the hits of the search, in the order of the search. *)
Theorem answer_is_prefixed_contents query (hits : list Hit) :
  hits <> [] ->
  generate_response query hits !! "answer"
  = Some (VStr (answer_prefix +:+ String.concat (nl +:+ nl) (map content hits)))
  /\ forall self k,
       search self query k = Return hits ->
       exists response,
         rag.query self query k = Return response
         /\ response !! "answer"
            = Some (VStr (answer_prefix
                          +:+ String.concat (nl +:+ nl) (map content hits))).
Proof.
  intros Hne.
  assert (H : generate_response query hits !! "answer"
              = Some (VStr (answer_prefix
                            +:+ String.concat (nl +:+ nl) (map content hits))))
    by now rewrite generate_response_nonempty.
  split; [exact H|]. intros self k Hs.
  exists (generate_response query hits). split; [|exact H].
  now apply query_with_hits.
Qed.

Lemma answer_is_prefixed_contents_witness :
  sample_hits <> []
  /\ generate_response "Carthage" sample_hits !! "answer"
     = Some (VStr (answer_prefix
                   +:+ "Carthage, la ville." +:+ nl +:+ nl
                   +:+ "Le tophet de Carthage." +:+ nl +:+ nl
                   +:+ "Dougga.")).
Proof.
  assert (H : sample_hits <> []) by discriminate.
  split; [exact H|].
  exact (proj1 (answer_is_prefixed_contents "Carthage" sample_hits H)).
Defined.

(** The separator stands between consecutive contents only: the contents
    follow one another in the order of the hits. *)
Lemma join_cons sep (x y : string) (l : list string) :
  String.concat sep (x :: y :: l) = x +:+ sep +:+ String.concat sep (y :: l).
Proof. reflexivity. Qed.

(** C9: called with an empty list, [generate_response] returns a dict with
    the keys [answer], [sources] and [confidence] only, so without
    [context_results], and its text is not the text [query] uses when the
    search finds nothing. *)
Theorem generate_response_empty query :
  dom (generate_response query []) = ({["answer"; "sources"; "confidence"]} : gset string)
  /\ generate_response query [] !! "context_results" = None
  /\ exists text text',
       generate_response query [] !! "answer" = Some (VStr text)
       /\ no_result_response !! "answer" = Some (VStr text')
       /\ text <> text'.
Proof.
  split; [|split; [reflexivity|]].
  - unfold generate_response. rewrite !dom_insert_L, dom_empty_L. set_solver.
  - do 2 eexists. split; [reflexivity|]. split; [reflexivity|]. discriminate.
Qed.

End rag_properties.

(** ** The ingestion script *)

Section ingest_properties.
Import ingest ingest_spec ingest_samples.

Lemma load_documents_fold fs data_dir (l : list string) st :
  fold_left (load_documents_step fs data_dir) l st
  = (st.1 ++ flat_map (loaded_from fs data_dir) l,
     st.2 ++ flat_map (printed_for fs data_dir) l).
Proof.
  revert st. induction l as [|file l IH]; intros [docs out]; simpl.
  - now rewrite !app_nil_r.
  - rewrite IH. unfold load_documents_step, loaded_from, printed_for,
      os_path_exists, text_loader_load.
    destruct (fs !! os_path_join data_dir file) as [[text|e]|]; simpl;
      now rewrite <- ?app_assoc.
Qed.

Lemma load_documents_unfold fs data_dir :
  load_documents fs data_dir
  = (flat_map (loaded_from fs data_dir) files,
     flat_map (printed_for fs data_dir) files).
Proof. unfold load_documents. now rewrite load_documents_fold. Qed.

Lemma elem_of_flat_map {A B} (f : A -> list B) (l : list A) (y : B) :
  y ∈ flat_map f l <-> exists x, x ∈ l /\ y ∈ f x.
Proof.
  rewrite list_elem_of_In, in_flat_map. split; intros (x & Hx & Hy); exists x.
  - now rewrite !list_elem_of_In.
  - now rewrite <- !list_elem_of_In.
Qed.

Lemma flat_map_ext_elem_of {A B} (f g : A -> list B) (l : list A) :
  (forall x, x ∈ l -> f x = g x) -> flat_map f l = flat_map g l.
Proof.
  induction l as [|a l IH]; intros H; simpl; [reflexivity|].
  rewrite (H a) by left. f_equal. apply IH. intros x Hx. apply H. now right.
Qed.

Lemma loaded_from_inv fs data_dir file doc :
  doc ∈ loaded_from fs data_dir file ->
  doc_metadata doc !! "source" = Some file
  /\ fs !! os_path_join data_dir file = Some (Readable (page_content doc)).
Proof.
  unfold loaded_from.
  destruct (fs !! os_path_join data_dir file) as [[text|e]|]; intros H;
    try (now apply elem_of_nil in H).
  apply list_elem_of_singleton in H as ->. split; [|reflexivity].
  unfold add_metadata. simpl. apply lookup_insert_eq.
Qed.


Lemma load_documents_ext fs fs' data_dir :
  (forall file, file ∈ files ->
     fs !! os_path_join data_dir file = fs' !! os_path_join data_dir file) ->
  load_documents fs data_dir = load_documents fs' data_dir.
Proof.
  intros H. rewrite !load_documents_unfold.
  f_equal; apply flat_map_ext_elem_of; intros file Hf;
    unfold loaded_from, printed_for; now rewrite (H file Hf).
Qed.

Lemma main_ext split_text similarity_search fs fs' :
  load_documents fs "data/raw" = load_documents fs' "data/raw" ->
  main split_text similarity_search fs = main split_text similarity_search fs'.
Proof. unfold main. now intros ->. Qed.

(** C10: [load_documents] looks only at the five names of [files] under the
    data directory. A file at any other path changes nothing: the documents
    and the output are the same with or without it, every document loaded
    comes from one of the five names, and [main] chunks and indexes the
    same. *)
Theorem only_listed_files_are_loaded split_text similarity_search
    (fs : gmap string file_entry) data_dir path entry :
  path ∉ map (os_path_join data_dir) files ->
  files = ["carthage.txt"; "dougga.txt"; "el_jem.txt"; "kerkouane.txt"; "sbeitla.txt"]
  /\ load_documents (<[path := entry]> fs) data_dir = load_documents fs data_dir
  /\ (forall doc, doc ∈ (load_documents (<[path := entry]> fs) data_dir).1 ->
        exists file, file ∈ files
          /\ doc_metadata doc !! "source" = Some file
          /\ fs !! os_path_join data_dir file = Some (Readable (page_content doc)))
  /\ (data_dir = "data/raw" ->
        main split_text similarity_search (<[path := entry]> fs)
        = main split_text similarity_search fs).
Proof.
  intros Hpath.
  assert (Heq : load_documents (<[path := entry]> fs) data_dir
                = load_documents fs data_dir).
  { apply load_documents_ext. intros file Hf. apply lookup_insert_ne.
    intros ->. apply Hpath. apply list_elem_of_fmap. eauto. }
  split; [reflexivity|]. split; [exact Heq|]. split.
  - intros doc. rewrite Heq, load_documents_unfold. cbn [fst].
    intros (file & Hf & Hdoc)%elem_of_flat_map.
    exists file. split; [assumption|]. now apply loaded_from_inv.
  - intros ->. now apply main_ext.
Qed.

Example load_sample :
  load_documents sample_fs "data/raw"
  = ([carthage_document],
     [print_loaded "carthage.txt" 1;
      print_load_error "el_jem.txt"
        (Exception "RuntimeError" "Error loading data/raw/el_jem.txt")]).
Proof. vm_compute. reflexivity. Qed.






Lemma only_listed_files_are_loaded_witness :
("data/raw/notes.txt" ∉ map (os_path_join "data/raw") files)
  /\ load_documents sample_fs "data/raw"
     = load_documents (delete "data/raw/notes.txt" sample_fs) "data/raw"
  /\ main whole_text first_chunks sample_fs
     = main whole_text first_chunks (delete "data/raw/notes.txt" sample_fs).
Proof.
  assert (H : "data/raw/notes.txt" ∉ map (os_path_join "data/raw") files).
  { apply (bool_decide_unpack _). vm_compute. exact I. }
  pose proof (only_listed_files_are_loaded whole_text first_chunks
                (delete "data/raw/notes.txt" sample_fs) "data/raw"
                "data/raw/notes.txt" (Readable "Brouillon.") H)
    as (_ & Hload & _ & Hmain).
  split; [exact H|]. split; [exact Hload|]. exact (Hmain eq_refl).
Defined.


End ingest_properties.

(** ** The Chunker *)

Section chunker_properties.
Import ingest ingest_spec ingest_samples chunker chunker_spec.


Lemma string_app_nil_r (s : string) : s +:+ EmptyString = s.
Proof.
  induction s as [|c s IH]; [reflexivity|].
  change (String c (s +:+ EmptyString) = String c s). now f_equal.
Qed.

Lemma string_app_assoc (s1 s2 s3 : string) :
  (s1 +:+ s2) +:+ s3 = s1 +:+ (s2 +:+ s3).
Proof.
  induction s1 as [|c s1 IH]; [reflexivity|].
  change (String c ((s1 +:+ s2) +:+ s3) = String c (s1 +:+ (s2 +:+ s3))).
  now f_equal.
Qed.

Lemma window_text_cons (segment : string) (window : list string) :
  window_text (segment :: window) = segment +:+ window_text window.
Proof.
  unfold window_text. destruct window as [|s w]; simpl.
  - now rewrite string_app_nil_r.
  - reflexivity.
Qed.

Lemma window_text_app (w1 w2 : list string) :
  window_text (w1 ++ w2) = window_text w1 +:+ window_text w2.
Proof.
  induction w1 as [|s w1 IH]; [reflexivity|].
  change ((s :: w1) ++ w2) with (s :: (w1 ++ w2)).
  now rewrite !window_text_cons, IH, string_app_assoc.
Qed.

(** The pieces of [split_on] put end to end are the text. *)
Lemma split_on_text (sep text : string) : window_text (split_on sep text) = text.
Proof.
  induction text as [|c text IH]; [reflexivity|]. simpl.
  destruct (split_on sep text) as [|piece pieces].
  - cbn in IH. now subst.
  - destruct (String.prefix sep text).
    + now rewrite window_text_cons, IH.
    + rewrite window_text_cons in IH. rewrite window_text_cons.
      change (String c (piece +:+ window_text pieces) = String c text).
      now f_equal.
Qed.

(** The segments of [split_recursive] put end to end are the text: no
    character is lost or added by the splitting. *)
Lemma split_recursive_text chunk_size separators text :
  window_text (split_recursive chunk_size separators text) = text.
Proof.
  revert text. induction separators as [|sep separators IH]; intros text; simpl.
  - apply split_on_text.
  - rewrite <- (split_on_text sep text) at 2.
    induction (split_on sep text) as [|piece pieces IHp]; [reflexivity|]. simpl.
    rewrite window_text_app, window_text_cons, IHp. f_equal.
    destruct (_ <=? _)%nat; [reflexivity|apply IH].
Qed.






Lemma slide_overlap chunk_overlap room window :
  (String.length (window_text (slide chunk_overlap room window)) <= chunk_overlap)%nat.
Proof.
  induction window as [|s w IH]; [cbv; lia|].
  cbn [slide].
  destruct (_ && _)%bool eqn:E; [|assumption].
  apply andb_true_iff in E as [E _]. now apply Nat.leb_le.
Qed.






Example chunks_sample :
  map page_content (create_chunks split_text [carthage_document] 8 2).1
  = ["Carthage"; "ge, la"; " ville."].
Proof. vm_compute. reflexivity. Qed.


End chunker_properties.

(** * Further properties of the code *)

(** ** src/auth.py *)

Section auth_properties.
Import auth.

Variable sha256_hexdigest : string -> string.






Lemma register_cases (self : AuthSystem) now disk username password :
  register sha256_hexdigest self now disk username password
  = match read_users self disk with
    | Raise e => (disk, (false, "Erreur lors de l'inscription: " +:+ exn_msg e))
    | Return users =>
        match users !! username with
        | Some _ => (disk, (false, "Cet utilisateur existe déjà"))
        | None =>
            match write_error disk with
            | Some e => (disk, (false, "Erreur lors de l'inscription: " +:+ exn_msg e))
            | None =>
                ({| users_file_state :=
                      Json (<[username := new_record sha256_hexdigest self now password]> users);
                    write_error := None |},
                 (true, "Inscription réussie !"))
            end
        end
    end.
Proof.
  unfold register. destruct (read_users self disk) as [users|e]; simpl; [|reflexivity].
  destruct (users !! username) as [record|]; simpl; [reflexivity|].
  unfold write_users. now destruct (write_error disk).
Qed.

Lemma login_cases (self : AuthSystem) now disk username password :
  login sha256_hexdigest self now disk username password
  = match read_users self disk with
    | Raise e => (disk, (false, "Erreur lors de la connexion: " +:+ exn_msg e))
    | Return users =>
        match users !! username with
        | None => (disk, (false, "Utilisateur non trouvé"))
        | Some record =>
            match record !! "password" with
            | None => (disk, (false, "Erreur lors de la connexion: 'password'"))
            | Some stored =>
                if bool_decide (stored = Some (sha256_hexdigest password)) then
                  match write_error disk with
                  | Some e => (disk, (false, "Erreur lors de la connexion: " +:+ exn_msg e))
                  | None =>
                      ({| users_file_state :=
                            Json (<[username := <["last_login" := Some now]> record]> users);
                          write_error := None |},
                       (true, "Connexion réussie !"))
                  end
                else (disk, (false, "Mot de passe incorrect"))
            end
        end
    end.
Proof.
  unfold login. destruct (read_users self disk) as [users|e]; simpl; [|reflexivity].
  destruct (users !! username) as [record|]; simpl; [|reflexivity].
  destruct (record !! "password") as [stored|]; simpl; [|reflexivity].
  unfold _hash_password.
  destruct (decide (stored = Some (sha256_hexdigest password))) as [E|E].
  - rewrite bool_decide_eq_false_2 by tauto. rewrite bool_decide_eq_true_2 by assumption.
    unfold write_users. now destruct (write_error disk).
  - rewrite bool_decide_eq_true_2 by assumption.
    now rewrite bool_decide_eq_false_2 by assumption.
Qed.

Lemma read_users_json self disk users :
  read_users self disk = Return users <-> users_file_state disk = Json users.
Proof.
  unfold read_users. destruct (users_file_state disk); split; intros H;
    simplify_eq; reflexivity.
Qed.



(** X4: after a successful [register], the user did not exist
    before and exists now, [login] with the same password succeeds and the
    user still exists, and [login] with a password of another hash is
    refused as incorrect, the disk unchanged. *)
Theorem register_then_login (self : AuthSystem) now now' disk username password
    disk' message :
  register sha256_hexdigest self now disk username password
  = (disk', (true, message)) ->
  user_exists self disk username = false
  /\ user_exists self disk' username = true
  /\ exists disk'',
       login sha256_hexdigest self now' disk' username password
       = (disk'', (true, "Connexion réussie !"))
       /\ user_exists self disk'' username = true
       /\ forall other,
            sha256_hexdigest other <> sha256_hexdigest password ->
            login sha256_hexdigest self now' disk' username other
            = (disk', (false, "Mot de passe incorrect")).
Proof.
  rewrite register_cases. unfold user_exists.
  destruct (read_users self disk) as [users|e] eqn:R; simpl; [|intros [=]].
  destruct (users !! username) as [record|] eqn:U; simpl; [intros [=]|].
  destruct (write_error disk) as [e|] eqn:W; simpl; intros [= <- <-].
  split; [reflexivity|].
  simpl. rewrite lookup_insert_eq. split; [reflexivity|].
  eexists. rewrite login_cases. simpl. rewrite lookup_insert_eq.
  unfold new_record, _hash_password. rewrite lookup_insert_eq.
  rewrite bool_decide_eq_true_2 by reflexivity. simpl.
  split; [reflexivity|]. split; [simpl; now rewrite lookup_insert_eq|].
  intros other Hother. rewrite login_cases. simpl.
  rewrite !lookup_insert_eq.
  rewrite bool_decide_eq_false_2 by congruence. reflexivity.
Qed.





(** X6: when the users file cannot be read, [register] and [login]
    raise nothing: both return [False] with their own prefix before the text
    of the exception and leave the disk as it is (a missing file is not
    created), and [user_exists] returns [False]. *)
Theorem unreadable_users_file (self : AuthSystem) now disk username password e :
  read_users self disk = Raise e ->
  register sha256_hexdigest self now disk username password
  = (disk, (false, "Erreur lors de l'inscription: " +:+ exn_msg e))
  /\ login sha256_hexdigest self now disk username password
     = (disk, (false, "Erreur lors de la connexion: " +:+ exn_msg e))
  /\ user_exists self disk username = false
  /\ (users_file_state disk = Absent ->
      exn_msg e = "[Errno 2] No such file or directory: '" +:+ users_file self +:+ "'").
Proof.
  intros R. rewrite register_cases, login_cases. unfold user_exists. rewrite R.
  repeat split. intros H. unfold read_users in R. rewrite H in R. now injection R as <-.
Qed.

End auth_properties.

Section auth_examples.
Import auth.

Lemma register_then_login_witness :
  user_exists more_samples.sample_auth more_samples.empty_disk "amira" = false
  /\ user_exists more_samples.sample_auth more_samples.registered_disk "amira" = true
  /\ exists disk'',
       login more_samples.sample_hash more_samples.sample_auth
         "2024-05-01T10:02:00" more_samples.registered_disk "amira" "carthage1"
       = (disk'', (true, "Connexion réussie !"))
       /\ user_exists more_samples.sample_auth disk'' "amira" = true
       /\ forall other,
            more_samples.sample_hash other <> more_samples.sample_hash "carthage1" ->
            login more_samples.sample_hash more_samples.sample_auth
              "2024-05-01T10:02:00" more_samples.registered_disk "amira" other
            = (more_samples.registered_disk, (false, "Mot de passe incorrect")).
Proof.
  apply (register_then_login more_samples.sample_hash more_samples.sample_auth "2024-05-01T10:00:00"
           "2024-05-01T10:02:00" more_samples.empty_disk "amira" "carthage1"
           more_samples.registered_disk "Inscription réussie !").
  vm_compute. reflexivity.
Defined.


Lemma unreadable_users_file_witness :
  register more_samples.sample_hash more_samples.sample_auth "2024-05-01T10:00:00"
    more_samples.missing_disk "amira" "carthage1"
  = (more_samples.missing_disk,
     (false, "Erreur lors de l'inscription: [Errno 2] No such file or directory: 'data/users.json'"))
  /\ login more_samples.sample_hash more_samples.sample_auth "2024-05-01T10:00:00"
       more_samples.missing_disk "amira" "carthage1"
     = (more_samples.missing_disk,
        (false, "Erreur lors de la connexion: [Errno 2] No such file or directory: 'data/users.json'"))
  /\ user_exists more_samples.sample_auth more_samples.missing_disk "amira" = false.
Proof.
  destruct (unreadable_users_file more_samples.sample_hash more_samples.sample_auth "2024-05-01T10:00:00"
              more_samples.missing_disk "amira" "carthage1" _ eq_refl)
    as (Hr & Hl & Hu & _).
  split; [exact Hr|]. split; [exact Hl|exact Hu].
Defined.

End auth_examples.

(** ** src/app.py: login, sign-up and routing *)

Section pages_properties.
Import rag auth pages.

Variable sha256_hexdigest : string -> string.
Variable auth_system : AuthSystem.
Variable engine : option RAGEngine.

Lemma truthy_true (s : string) : truthy s = true <-> s <> EmptyString.
Proof.
  unfold truthy. destruct (String.eqb_spec s EmptyString); split; simpl;
    congruence.
Qed.

Lemma login_success_registered now disk username password disk' message :
  login sha256_hexdigest auth_system now disk username password
  = (disk', (true, message)) ->
  user_exists auth_system disk' username = true
  /\ exists users record,
       users_file_state disk = Json users
       /\ users !! username = Some record
       /\ record !! "password" = Some (Some (sha256_hexdigest password)).
Proof.
  rewrite login_cases. unfold user_exists.
  destruct (read_users auth_system disk) as [users|e] eqn:R; simpl; [|intros [=]].
  destruct (users !! username) as [record|] eqn:U; simpl; [|intros [=]].
  destruct (record !! "password") as [stored|] eqn:P; simpl; [|intros [=]].
  destruct (decide (stored = Some (sha256_hexdigest password))) as [->|E].
  - rewrite bool_decide_eq_true_2 by reflexivity.
    destruct (write_error disk); simpl; intros [= <- <-].
    simpl. rewrite lookup_insert_eq. split; [reflexivity|].
    apply read_users_json in R. eauto.
  - rewrite bool_decide_eq_false_2 by assumption. intros [=].
Qed.





Lemma signup_click_session now disk session new_user new_pwd confirm_pwd :
  (signup_click sha256_hexdigest auth_system now disk session
     new_user new_pwd confirm_pwd).1.2 = session.
Proof.
  unfold signup_click.
  destruct (_ && _)%bool; [|reflexivity].
  destruct (negb _); [reflexivity|].
  destruct (_ <? _)%nat; [reflexivity|].
  destruct (_ <? _)%nat; [reflexivity|].
  destruct (register _ _ _ _ _ _) as [disk' [[|] message]]; reflexivity.
Qed.



(** What holds of the disk and the session whatever the visitor does. *)
Lemma step_keeps_authenticated_registered (st : Disk * SessionState) (a : action) :
  (authenticated st.2 = true ->
   user_exists auth_system st.1 (username st.2) = true
   /\ username st.2 <> EmptyString /\ rag_engine st.2 = engine) ->
  let st' := step sha256_hexdigest auth_system engine st a in
  authenticated st'.2 = true ->
  user_exists auth_system st'.1 (username st'.2) = true
  /\ username st'.2 <> EmptyString /\ rag_engine st'.2 = engine.
Proof.
  destruct st as [disk session]. simpl. intros Inv. unfold step, main.
  destruct (authenticated session) eqn:A; simpl.
  - destruct a; simpl; try (intros _; now apply Inv). discriminate.
  - destruct a as [now u p|now u p c|]; simpl; try (rewrite A; discriminate).
    + unfold login_click.
      destruct (truthy u) eqn:Tu; simpl; [|rewrite A; discriminate].
      destruct (truthy p) eqn:Tp; simpl; [|rewrite A; discriminate].
      destruct (login sha256_hexdigest auth_system now disk u p)
        as [disk' [[|] message]] eqn:L; simpl; [|rewrite A; discriminate].
      intros _. apply login_success_registered in L as [? _].
      apply truthy_true in Tu. auto.
    + rewrite signup_click_session, A. discriminate.
Qed.

(** X9: from a first visit, whatever the visitor clicks, the
    routing shows the chatbot page only for a session whose user name is not
    empty and is a user of the users file, and the session holds the engine
    of the script. *)
Theorem chatbot_page_needs_a_registered_user (actions : list action) (disk : Disk) :
  let final :=
    fold_left (step sha256_hexdigest auth_system engine) actions
      (disk, initial_session) in
  main final.2 = chatbot_page ->
  user_exists auth_system final.1 (username final.2) = true
  /\ username final.2 <> EmptyString
  /\ rag_engine final.2 = engine.
Proof.
  intros final Hpage.
  assert (Hauth : authenticated final.2 = true).
  { unfold main in Hpage. now destruct (authenticated final.2). }
  clear Hpage. revert Hauth. subst final.
  assert (Hinit : authenticated (disk, initial_session).2 = true ->
            user_exists auth_system (disk, initial_session).1
              (username (disk, initial_session).2) = true
            /\ username (disk, initial_session).2 <> EmptyString
            /\ rag_engine (disk, initial_session).2 = engine) by discriminate.
  revert Hinit. generalize (disk, initial_session).
  induction actions as [|a actions IH]; intros st Hst; simpl; [exact Hst|].
  apply IH. now apply step_keeps_authenticated_registered.
Qed.


End pages_properties.

Section pages_examples.
Import rag auth pages.

Lemma chatbot_page_needs_a_registered_user_witness :
  main (fold_left (step more_samples.sample_hash more_samples.sample_auth None)
          more_samples.sample_visit
          (more_samples.empty_disk, initial_session)).2 = chatbot_page
  /\ username (fold_left (step more_samples.sample_hash more_samples.sample_auth None)
                 more_samples.sample_visit
                 (more_samples.empty_disk, initial_session)).2 = "amira"
  /\ user_exists more_samples.sample_auth
       (fold_left (step more_samples.sample_hash more_samples.sample_auth None)
          more_samples.sample_visit
          (more_samples.empty_disk, initial_session)).1 "amira" = true.
Proof.
  assert (Hpage : main (fold_left (step more_samples.sample_hash
                                     more_samples.sample_auth None)
                          more_samples.sample_visit
                          (more_samples.empty_disk, initial_session)).2
                  = chatbot_page) by (vm_compute; reflexivity).
  split; [exact Hpage|]. split; [vm_compute; reflexivity|].
  exact (proj1 (chatbot_page_needs_a_registered_user more_samples.sample_hash
                  more_samples.sample_auth None more_samples.sample_visit
                  more_samples.empty_disk Hpage)).
Defined.

End pages_examples.

(** ** src/rag.py: the interactive loop *)

Section cli_properties.
Import rag spec cli.













End cli_properties.

(** ** src/rag.py and the search handler of src/app.py *)

Section engine_properties.
Import rag app spec pages.

Lemma format_results_length i0 docs metas dists :
  length (format_results i0 docs metas dists)
  = Nat.min (length docs) (Nat.min (length metas) (length dists)).
Proof.
  revert i0 metas dists. induction docs as [|doc docs IH]; intros i0 metas dists;
    [reflexivity|].
  destruct metas as [|meta metas]; [reflexivity|].
  destruct dists as [|d dists]; [simpl; lia|].
  simpl. now rewrite IH.
Qed.

Lemma format_results_rank i0 docs metas dists (i : nat) h :
  format_results i0 docs metas dists !! i = Some h ->
  id h = i0 + Z.of_nat i
  /\ docs !! i = Some (content h)
  /\ metas !! i = Some (metadata h)
  /\ exists d, dists !! i = Some d /\ distance h = py_round3 d.
Proof.
  revert i0 metas dists i.
  induction docs as [|doc docs IH]; intros i0 metas dists i; simpl; [discriminate|].
  destruct metas as [|meta metas]; [discriminate|].
  destruct dists as [|d dists]; [discriminate|].
  destruct i as [|i]; simpl.
  - intros [= <-]. simpl. repeat split; [lia|eauto].
  - intros H. apply IH in H as (Hid & ? & ? & ?). repeat split; auto. lia.
Qed.

(** X12: when the index returns no document list, [search]
    returns no hit. Otherwise the hits are as many as the shortest of the
    three lists, and the hit of rank [i] has [id] [i], the document and the
    metadata of rank [i], and as [distance] the distance of rank [i] rounded
    to three decimals. *)
Theorem search_keeps_ranks self question k hits :
  search self question k = Return hits ->
  exists results,
    collection_query (collection self) [question] k = Return results
    /\ (documents results = [] -> hits = [])
    /\ (forall docs rest, documents results = docs :: rest ->
        exists metas dists,
          head (metadatas results) = Some metas
          /\ head (distances results) = Some dists
          /\ length hits
             = Nat.min (length docs) (Nat.min (length metas) (length dists))
          /\ forall (i : nat) h, hits !! i = Some h ->
               id h = Z.of_nat i
               /\ docs !! i = Some (content h)
               /\ metas !! i = Some (metadata h)
               /\ exists d, dists !! i = Some d /\ distance h = py_round3 d).
Proof.
  unfold search. destruct (collection_query _ _ _) as [results|e]; simpl; [|discriminate].
  intros H. exists results. split; [reflexivity|].
  destruct (documents results) as [|docs rest]; simpl in H.
  { injection H as <-. split; [reflexivity|]. discriminate. }
  split; [discriminate|]. intros docs' rest' [= <- <-].
  destruct (metadatas results) as [|metas ?]; simpl in H; [discriminate|].
  destruct (distances results) as [|dists ?]; simpl in H; [discriminate|].
  injection H as <-. exists metas, dists.
  split; [reflexivity|]. split; [reflexivity|].
  split; [apply format_results_length|].
  intros i h Hi. now apply format_results_rank in Hi.
Qed.

Lemma search_keeps_ranks_witness :
  exists results,
    collection_query samples.sample_collection ["Carthage"] 3 = Return results
    /\ (documents results = [] -> samples.sample_hits = [])
    /\ (forall docs rest, documents results = docs :: rest ->
        exists metas dists,
          head (metadatas results) = Some metas
          /\ head (distances results) = Some dists
          /\ length samples.sample_hits
             = Nat.min (length docs) (Nat.min (length metas) (length dists))
          /\ forall (i : nat) h, samples.sample_hits !! i = Some h ->
               id h = Z.of_nat i
               /\ docs !! i = Some (content h)
               /\ metas !! i = Some (metadata h)
               /\ exists d, dists !! i = Some d /\ distance h = py_round3 d).
Proof.
  apply (search_keeps_ranks (samples.engine samples.sample_collection) "Carthage" 3).
  reflexivity.
Defined.

(** X13: [search] raises exactly when the index raises, with the
    same exception, or when the index returns documents without a list of
    metadatas or of distances, with an [IndexError]. *)
Theorem search_raises_iff self question k e :
  search self question k = Raise e <->
  collection_query (collection self) [question] k = Raise e
  \/ exists results,
       collection_query (collection self) [question] k = Return results
       /\ documents results <> []
       /\ (metadatas results = [] \/ distances results = [])
       /\ e = Exception "IndexError" "list index out of range".
Proof.
  unfold search. destruct (collection_query _ _ _) as [results|e']; simpl.
  - destruct (documents results) as [|docs rest] eqn:Dc; simpl.
    { split; [discriminate|]. intros [[=]|(r & [= <-] & Hd & _)]. congruence. }
    destruct (metadatas results) as [|metas ?] eqn:M; simpl.
    { split.
      - intros [= <-]. right. exists results.
        split; [reflexivity|]. split; [rewrite Dc; discriminate|].
        split; [now left|reflexivity].
      - intros [[=]|(r & [= <-] & _ & _ & ->)]. reflexivity. }
    destruct (distances results) as [|dists ?] eqn:D; simpl.
    { split.
      - intros [= <-]. right. exists results.
        split; [reflexivity|]. split; [rewrite Dc; discriminate|].
        split; [now right|reflexivity].
      - intros [[=]|(r & [= <-] & _ & _ & ->)]. reflexivity. }
    split; [discriminate|].
    intros [[=]|(r & [= <-] & _ & [?|?] & _)]; congruence.
  - split; [intros [= ->]; now left|].
    intros [[= ->]|(r & [=] & _)]. reflexivity.
Qed.

Lemma first_occurrences_nonempty l : l <> [] -> first_occurrences l <> [].
Proof. destruct l; [congruence|discriminate]. Qed.

(** X14: for a non-empty list of hits, [context_results] is the
    number of hits, and the number of sources is at least 1 and at most the
    number of hits. *)
Theorem sources_count_bounds query (hits : list Hit) :
  hits <> [] ->
  exists sources,
    generate_response query hits !! "sources" = Some (VSources sources)
    /\ generate_response query hits !! "context_results"
       = Some (VInt (Z.of_nat (length hits)))
    /\ (1 <= length sources <= length hits)%nat.
Proof.
  intros Hne. rewrite generate_response_nonempty by assumption.
  exists (first_occurrences (map source_info_of hits)).
  split; [reflexivity|]. split; [reflexivity|].
  pose proof (sublist_length _ _ (first_occurrences_sublist (map source_info_of hits))) as Hle.
  rewrite length_map in Hle. split; [|exact Hle].
  destruct hits as [|h hits]; [congruence|]. simpl. lia.
Qed.

Lemma sources_count_bounds_witness :
  exists sources,
    generate_response "Carthage" samples.sample_hits !! "sources"
    = Some (VSources sources)
    /\ generate_response "Carthage" samples.sample_hits !! "context_results"
       = Some (VInt 3)
    /\ (1 <= length sources <= 3)%nat.
Proof.
  assert (H : samples.sample_hits <> []) by discriminate.
  exact (sources_count_bounds "Carthage" samples.sample_hits H).
Defined.

Lemma query_cases self question k response :
  query self question k = Return response ->
  (search self question k = Return [] /\ response = no_result_response)
  \/ (exists hits, hits <> [] /\ search self question k = Return hits
        /\ response = generate_response question hits).
Proof.
  destruct (search self question k) as [[|h hits]|e] eqn:S.
  - unfold query. rewrite S. intros [= <-]. now left.
  - rewrite (query_with_hits _ _ _ _ S) by discriminate. intros H. right.
    exists (h :: hits). repeat split; [discriminate|congruence].
  - unfold query. rewrite S. discriminate.
Qed.

(** X15: every response of [query] has exactly the keys
    [answer], [sources], [confidence] and [context_results], holding a text,
    a list of sources no longer than the hits, a float and the number of
    hits; so the test [result['confidence'] > 0] of the page raises
    nothing. *)
Theorem query_response_has_four_fields self question k response :
  query self question k = Return response ->
  dom response
  = ({["answer"; "sources"; "confidence"; "context_results"]} : gset string)
  /\ exists answer sources confidence hits,
       search self question k = Return hits
       /\ response !! "answer" = Some (VStr answer)
       /\ response !! "sources" = Some (VSources sources)
       /\ response !! "confidence" = Some (VFloat confidence)
       /\ response !! "context_results" = Some (VInt (Z.of_nat (length hits)))
       /\ (length sources <= length hits)%nat
       /\ confidence_is_positive response = Return (PrimFloat.ltb 0 confidence).
Proof.
  intros [[S ->]|(hits & Hne & S & ->)]%query_cases.
  - split; [unfold no_result_response; rewrite !dom_insert_L, dom_empty_L; set_solver|].
    exists "Aucune information pertinente trouvée.", [], 0%float, [].
    repeat split; auto.
  - rewrite generate_response_nonempty by assumption.
    split; [rewrite !dom_insert_L, dom_empty_L; set_solver|].
    eexists _, (first_occurrences (map source_info_of hits)), _, hits.
    split; [exact S|]. split; [reflexivity|]. split; [reflexivity|].
    split; [reflexivity|]. split; [reflexivity|]. split; [|reflexivity].
    pose proof (sublist_length _ _
      (first_occurrences_sublist (map source_info_of hits))) as Hle.
    now rewrite length_map in Hle.
Qed.

Lemma query_response_has_four_fields_witness :
  dom no_result_response
  = ({["answer"; "sources"; "confidence"; "context_results"]} : gset string)
  /\ exists answer sources confidence hits,
       search (samples.engine samples.empty_collection) "Carthage" 3 = Return hits
       /\ no_result_response !! "answer" = Some (VStr answer)
       /\ no_result_response !! "sources" = Some (VSources sources)
       /\ no_result_response !! "confidence" = Some (VFloat confidence)
       /\ no_result_response !! "context_results"
          = Some (VInt (Z.of_nat (length hits)))
       /\ (length sources <= length hits)%nat
       /\ confidence_is_positive no_result_response
          = Return (PrimFloat.ltb 0 confidence).
Proof.
  apply (query_response_has_four_fields (samples.engine samples.empty_collection)
           "Carthage" 3).
  reflexivity.
Defined.

(** X16: for a question that is not empty, the page shows the
    "not initialised" error when the engine could not be built; with an
    engine, it shows the answer exactly when the search returned hits and
    the confidence is above 0, and the "no information" warning otherwise,
    also for hits whose confidence is 0 or less. *)
Theorem chatbot_search_shows_confident_answers self question :
  question <> EmptyString ->
  (forall e, chatbot_search (init_rag (Raise e)).1 question
     = [app.st_error "Le moteur RAG n'est pas initialisé. Exécutez ingest.py d'abord."])
  /\ (forall hits, search self question 3 = Return hits ->
      chatbot_search (init_rag (Return self)).1 question
      = if (match hits with [] => false | _ :: _ => true end
            && PrimFloat.ltb 0 (py_round3 (mean (map similarity_score hits))))%bool
        then [st_answer (generate_response question hits)]
        else [app.st_warning "⚠️ Aucune information pertinente trouvée.";
              st_info "💡 Essayez avec : Carthage, Dougga, El Jem, Kerkouane, Sbeitla"]).
Proof.
  intros Hq. split.
  - intros e. unfold chatbot_search. simpl.
    now rewrite (proj2 (String.eqb_neq _ _) Hq).
  - intros hits S. simpl. unfold chatbot_search.
    rewrite (proj2 (String.eqb_neq _ _) Hq).
    destruct hits as [|h hits].
    + unfold query. rewrite S. reflexivity.
    + rewrite (query_with_hits _ _ _ _ S) by discriminate.
      rewrite generate_response_nonempty by discriminate.
      cbn [andb]. unfold mbind, result_bind at 1. unfold confidence_is_positive.
      rewrite (lookup_insert_ne _ "answer" "confidence") by discriminate.
      rewrite (lookup_insert_ne _ "sources" "confidence") by discriminate.
      rewrite lookup_insert_eq. unfold mbind, result_bind.
      now destruct (PrimFloat.ltb _ _).
Qed.

Lemma chatbot_search_shows_confident_answers_witness :
  chatbot_search (init_rag (Return (samples.engine samples.sample_collection))).1
    "Carthage"
  = [st_answer (generate_response "Carthage" samples.sample_hits)]
  /\ chatbot_search
       (init_rag (Raise (Exception "ValueError" "Collection does not exist"))).1
       "Carthage"
     = [app.st_error "Le moteur RAG n'est pas initialisé. Exécutez ingest.py d'abord."].
Proof.
  assert (Hq : "Carthage" <> EmptyString) by discriminate.
  destruct (chatbot_search_shows_confident_answers
              (samples.engine samples.sample_collection) "Carthage" Hq)
    as [Hnone Hsome].
  split; [exact (Hsome samples.sample_hits eq_refl)|apply Hnone].
Defined.
End engine_properties.

(** ** src/ingest.py *)

Section ingest_more_properties.
Import ingest ingest_spec.

(** The metadata of a document loaded from [file]: the ["source"] the loader
    had set, the path, is replaced by the file name. *)
Lemma add_metadata_dict file text path :
  doc_metadata (add_metadata file
                  {| page_content := text;
                     doc_metadata := {["source" := path]} |})
  = <["source" := file]>
    (<["site" := py_capitalize (py_remove ".txt" 0 file)]>
    (<["type" := "guide_officiel"]>
    (<["date" := "2024"]> ∅))).
Proof.
  unfold add_metadata. simpl. apply map_eq. intros key.
  destruct (decide (key = "source")) as [->|Hs];
    [now rewrite !lookup_insert_eq|].
  rewrite !(lookup_insert_ne _ "source") by congruence.
  destruct (decide (key = "site")) as [->|Hsite];
    [now rewrite !lookup_insert_eq|].
  rewrite !(lookup_insert_ne _ "site") by congruence.
  destruct (decide (key = "type")) as [->|Htype];
    [now rewrite !lookup_insert_eq|].
  rewrite !(lookup_insert_ne _ "type") by congruence.
  destruct (decide (key = "date")) as [->|Hdate];
    [now rewrite !lookup_insert_eq|].
  rewrite !(lookup_insert_ne _ "date") by congruence.
  rewrite lookup_singleton_ne by congruence. now rewrite lookup_empty.
Qed.

(** The events of [main], by the documents loaded. *)
Lemma ingestion_events split_text similarity_search (fs : gmap string file_entry) :
  main split_text similarity_search fs
  = let documents := (load_documents fs "data/raw").1 in
    let printed := (load_documents fs "data/raw").2 in
    let start := [Printed print_header; Printed print_loading] ++ map Printed printed in
    match documents with
    | [] => start ++ [Printed print_no_document]
    | _ :: _ =>
        let chunks := split_documents split_text 500 50 documents in
        start
        ++ [Printed print_chunking]
        ++ map Printed [print_chunks_created (length chunks)]
        ++ [Printed print_creating_store]
        ++ create_vector_store chunks "data/chroma_db"
        ++ [Printed (print_test_search "Carthage"); SimilaritySearch "Carthage" 2]
        ++ print_test_results (similarity_search chunks "Carthage" 2)
        ++ [Printed print_success]
    end.
Proof.
  unfold main. destruct (load_documents fs "data/raw") as [documents printed].
  now destruct documents.
Qed.

Lemma loaded_documents_inv (fs : gmap string file_entry) data_dir doc :
  doc ∈ (load_documents fs data_dir).1 ->
  exists file,
    file ∈ files
    /\ fs !! os_path_join data_dir file = Some (Readable (page_content doc))
    /\ doc_metadata doc
       = <["source" := file]>
         (<["site" := py_capitalize (py_remove ".txt" 0 file)]>
         (<["type" := "guide_officiel"]>
         (<["date" := "2024"]> ∅))).
Proof.
  rewrite load_documents_unfold. cbn [fst].
  intros (file & Hf & Hdoc)%elem_of_flat_map. exists file.
  split; [assumption|]. unfold loaded_from in Hdoc.
  destruct (fs !! os_path_join data_dir file) as [[text|e]|];
    try (now apply elem_of_nil in Hdoc).
  apply list_elem_of_singleton in Hdoc as ->.
  split; [reflexivity|]. apply add_metadata_dict.
Qed.



(** X18: whatever the splitter, when [main] indexes chunks, it
    does so in ["data/chroma_db"], at least one document was loaded, and
    every chunk is a piece of the text of a readable file of [files], split
    with sizes 500 and 50, carrying the metadata of that file. *)
Theorem main_indexes_loaded_files split_text similarity_search
    (fs : gmap string file_entry) chunks persist_directory :
  IndexDocuments chunks persist_directory ∈ main split_text similarity_search fs ->
  persist_directory = "data/chroma_db"
  /\ (load_documents fs "data/raw").1 <> []
  /\ chunks = split_documents split_text 500 50 (load_documents fs "data/raw").1
  /\ forall chunk, chunk ∈ chunks ->
       exists file text,
         file ∈ files
         /\ fs !! os_path_join "data/raw" file = Some (Readable text)
         /\ page_content chunk ∈ split_text 500%nat 50%nat separators text
         /\ doc_metadata chunk
            = <["source" := file]>
              (<["site" := py_capitalize (py_remove ".txt" 0 file)]>
              (<["type" := "guide_officiel"]>
              (<["date" := "2024"]> ∅))).
Proof.
  pose proof (ingestion_events split_text similarity_search fs) as Hmain.
  pose proof (loaded_documents_inv fs "data/raw") as Hall.
  destruct (load_documents fs "data/raw") as [documents printed]. cbn [fst] in *.
  destruct documents as [|doc documents].
  - rewrite Hmain. intros H.
    apply elem_of_cons in H as [[=]|H]. apply elem_of_cons in H as [[=]|H].
    apply elem_of_app in H as [H|H].
    + apply list_elem_of_fmap in H as (o & [=] & _).
    + apply list_elem_of_singleton in H. discriminate.
  - rewrite Hmain. cbv beta iota zeta.
    assert (Hne : doc :: documents <> []) by discriminate.
    clear Hmain. revert Hne Hall. generalize (doc :: documents). clear doc documents.
    intros documents Hne Hall.
    unfold create_vector_store, print_test_results.
    rewrite !elem_of_app, !elem_of_cons, !list_elem_of_fmap. intros H.
    repeat match goal with H : _ \/ _ |- _ => destruct H as [H|H] end;
      try discriminate; try (now apply elem_of_nil in H);
      try (destruct H as (o & [=] & _); fail);
      try (apply elem_of_lookup_imap in H as (i & d & [=] & _); fail).
    injection H as -> ->.
    split; [reflexivity|]. split; [exact Hne|]. split; [reflexivity|].
    intros chunk (d & Hd & Hc)%elem_of_flat_map.
    apply list_elem_of_fmap in Hc as (piece & -> & Hpiece). simpl.
    destruct (Hall d Hd) as (file & Hf & Hfs & Hm).
    exists file, (page_content d). auto.
Qed.

Lemma main_indexes_loaded_files_witness :
  IndexDocuments
    (split_documents ingest_samples.whole_text 500 50
       [ingest_samples.carthage_document]) "data/chroma_db"
  ∈ main ingest_samples.whole_text ingest_samples.first_chunks
      ingest_samples.sample_fs
  /\ forall chunk,
       chunk ∈ split_documents ingest_samples.whole_text 500 50
                 [ingest_samples.carthage_document] ->
       exists file text,
         file ∈ files
         /\ ingest_samples.sample_fs !! os_path_join "data/raw" file
            = Some (Readable text)
         /\ page_content chunk
            ∈ ingest_samples.whole_text 500%nat 50%nat separators text
         /\ doc_metadata chunk
            = <["source" := file]>
              (<["site" := py_capitalize (py_remove ".txt" 0 file)]>
              (<["type" := "guide_officiel"]>
              (<["date" := "2024"]> ∅))).
Proof.
  assert (H : IndexDocuments
                (split_documents ingest_samples.whole_text 500 50
                   [ingest_samples.carthage_document]) "data/chroma_db"
              ∈ main ingest_samples.whole_text ingest_samples.first_chunks
                  ingest_samples.sample_fs).
  { vm_compute. do 7 apply list_elem_of_further. apply list_elem_of_here. }
  split; [exact H|].
  exact (proj2 (proj2 (proj2 (main_indexes_loaded_files _ _ _ _ _ H)))).
Defined.
End ingest_more_properties.
